(** * Recurring-subscription aggregator: a shallow embedding and its properties

    This development embeds [parse_transactions] and the indexing part of
    [generate_html] from [generate_subscription_tracker.py] and establishes
    how they behave on every input.

    Modelling conventions.
    - A [datetime] is the number of microseconds since 0001-01-01T00:00:00,
      so that comparison, subtraction and [timedelta] arithmetic are the
      integer operations Python performs on naive datetimes.
    - Amounts and the average interval are Python floats in the source; they
      are modelled by exact rationals ([Q]).  Rounding error, infinities and
      NaN are outside the model.
    - The three library calls whose behaviour depends on the whole of
      Unicode or on the float grammar ([str.strip], [datetime.strptime] with
      the format ['%m/%d/%Y'], and [float]) are the fields of the class
      [PyLib]; everything is proved for an arbitrary instance, and the
      instance [ascii_lib] is used to run the code on concrete files.
    - A row produced by [csv.DictReader] is a dictionary from column names to
      a string or to [None] (a short row); it is an association list here.
    - [merchant_data] is an insertion-ordered dictionary; it is an
      association list whose order is the order of insertion.
    - [sorted] and [list.sort] are stable; they are modelled by a stable
      insertion sort, which returns the same list as any other stable sort.
    - The [while] loop of the prediction is run with fuel. *)

From Stdlib Require Import ZArith QArith Qabs List String Ascii Bool Lia Arith.
From Stdlib Require Import Sorted Permutation.
Import ListNotations.

Local Open Scope Z_scope.
Local Open Scope list_scope.

(** ** Outcomes of a run *)

Inductive exn : Type :=
| KeyError (key : string)
| AttributeError
| OverflowError.

Inductive outcome (A : Type) : Type :=
| Returns (a : A)
| Raises (e : exn)
| OutOfFuel.

Arguments Returns {A} a.
Arguments Raises {A} e.
Arguments OutOfFuel {A}.

Definition bind {A B : Type} (m : outcome A) (k : A -> outcome B) : outcome B :=
  match m with
  | Returns a => k a
  | Raises e => Raises e
  | OutOfFuel => OutOfFuel
  end.

Notation "x <- m ;; k" := (bind m (fun x => k))
  (at level 61, m at next level, right associativity).

(** ** Dates and durations *)

Definition datetime : Type := Z.

Definition us_per_day : Z := 86400000000.

(** [datetime.max] is 9999-12-31T23:59:59.999999, whose ordinal is 3652059. *)
Definition datetime_max : Z := 3652059 * us_per_day - 1.

(** [d + timedelta]: Python raises [OverflowError] outside years 1..9999. *)
Definition datetime_add (d : datetime) (td : Z) : outcome datetime :=
  let r := d + td in
  if (r <? 0) || (datetime_max <? r) then Raises OverflowError else Returns r.

(** [(b - a).days]: the days component of a normalised [timedelta]. *)
Definition days_between (a b : datetime) : Z := (b - a) / us_per_day.

(** Rounding to the nearest integer, ties to even: how [timedelta] turns a
    fractional number of microseconds into a whole one. *)
Definition round_half_even (q : Q) : Z :=
  let n := Qnum q in
  let d := Z.pos (Qden q) in
  let fl := n / d in
  let r := n mod d in
  match (2 * r) ?= d with
  | Lt => fl
  | Gt => fl + 1
  | Eq => if Z.even fl then fl else fl + 1
  end.

(** [timedelta(days=d)] as a number of microseconds. *)
Definition timedelta_days (d : Q) : Z :=
  round_half_even (d * inject_Z us_per_day).

(** ** Numbers *)

Definition Qltb (a b : Q) : bool := negb (Qle_bool b a).

Definition Zsum (l : list Z) : Z := fold_left Z.add l 0.

Definition Qsum (l : list Q) : Q := fold_left Qplus l (0 # 1).

(** [sum(l) / len(l)] for a non-empty list. *)
Definition Qmean (l : list Q) : Q :=
  Qsum l / inject_Z (Z.of_nat (List.length l)).

Definition Zmean (l : list Z) : Q :=
  inject_Z (Zsum l) / inject_Z (Z.of_nat (List.length l)).

(** ** Strings *)

Definition nonempty (s : string) : bool :=
  match s with EmptyString => false | String _ _ => true end.

(** [needle in hay]. *)
Fixpoint contains (needle hay : string) : bool :=
  String.prefix needle hay
  || match hay with
     | EmptyString => false
     | String _ hay' => contains needle hay'
     end.

(** ** The library calls left to the caller *)

Class PyLib : Type := {
  (** [s.strip()] *)
  strip : string -> string;
  (** [datetime.strptime(s, '%m/%d/%Y')]; [None] when it raises *)
  strptime : string -> option datetime;
  (** [float(s)]; [None] when it raises *)
  float : string -> option Q
}.

(** ** Rows and merchant groups *)

Definition field : Type := option string.

Definition row : Type := list (string * field).

Fixpoint row_get (r : row) (k : string) : option field :=
  match r with
  | [] => None
  | (k', v) :: r' => if String.eqb k' k then Some v else row_get r' k
  end.

Record charge : Type := mkCharge { c_date : datetime; c_amount : Q }.

Record group : Type := mkGroup {
  dates : list datetime;
  amounts : list Q;
  charges : list charge
}.

Definition empty_group : group := mkGroup [] [] [].

Definition merchant_data : Type := list (string * group).

(** [merchant_data[desc]] followed by an in-place update of the group; a
    missing key is created at the end, as a [defaultdict] does. *)
Fixpoint md_update (desc : string) (f : group -> group) (md : merchant_data)
  : merchant_data :=
  match md with
  | [] => [(desc, f empty_group)]
  | (k, g) :: rest =>
      if String.eqb k desc then (k, f g) :: rest
      else (k, g) :: md_update desc f rest
  end.

Fixpoint md_get (desc : string) (md : merchant_data) : option group :=
  match md with
  | [] => None
  | (k, g) :: rest => if String.eqb k desc then Some g else md_get desc rest
  end.

Definition append_date (d : datetime) (g : group) : group :=
  mkGroup (dates g ++ [d]) (amounts g) (charges g).

Definition append_amount (a : Q) (g : group) : group :=
  mkGroup (dates g) (amounts g ++ [a]) (charges g).

Definition append_charge (c : charge) (g : group) : group :=
  mkGroup (dates g) (amounts g) (charges g ++ [c]).

(** ** Stable sorting *)

Section Sorting.
Context {A : Type}.
(** [before y x] holds when [y] has to come strictly before [x]. *)
Variable before : A -> A -> bool.

Fixpoint insert_by (x : A) (l : list A) : list A :=
  match l with
  | [] => [x]
  | y :: l' => if before y x then y :: insert_by x l' else x :: y :: l'
  end.

Fixpoint sort_by (l : list A) : list A :=
  match l with
  | [] => []
  | x :: l' => insert_by x (sort_by l')
  end.
End Sorting.

(** Descending order of [key], for [sort(key=..., reverse=True)]: [y] goes
    strictly before [x] when its key is larger. *)
Definition desc_by {A : Type} (key : A -> nat) (y x : A) : bool :=
  (key x <? key y)%nat.

(** ** The aggregator *)

Section Aggregator.
Context {lib : PyLib}.

(** Line 116: the rows that are not subscriptions. *)
Definition skip_desc (desc : string) : bool :=
  negb (nonempty desc)
  || contains "PAYMENT - THANK YOU" desc
  || contains "PURCHASE INTEREST" desc
  || contains "OVERLIMIT FEE" desc.

(** Line 120; [None] stands for any exception, all caught at line 127. *)
Definition row_date (r : row) : option datetime :=
  match row_get r "Transaction Date" with
  | Some (Some s) => strptime s
  | _ => None
  end.

(** Line 121; [None] stands for any exception, all caught at line 127. *)
Definition row_amount (r : row) : option string :=
  match row_get r "CAD$" with
  | Some (Some cad) =>
      if nonempty (strip cad) then Some (strip cad)
      else match row_get r "USD$" with
           | Some (Some usd) => Some (strip usd)
           | _ => None
           end
  | _ => None
  end.

(** Lines 124-126.  The date is appended before [float(amount)] is
    evaluated, so a failure of [float] leaves the date in the group. *)
Definition store (desc : string) (date : datetime) (amount : string)
  (md : merchant_data) : merchant_data :=
  let md1 := md_update desc (append_date date) md in
  match float amount with
  | None => md1
  | Some a =>
      md_update desc (append_charge (mkCharge date a))
        (md_update desc (append_amount a) md1)
  end.

(** Lines 119-128: the [try] block with its bare [except: continue]. *)
Definition try_block (r : row) (desc : string) (md : merchant_data)
  : merchant_data :=
  match row_date r with
  | None => md
  | Some date =>
      match row_amount r with
      | None => md
      | Some amount =>
          if nonempty amount then store desc date amount md else md
      end
  end.

(** Lines 113-128: one iteration of the row loop. *)
Definition row_step (md : merchant_data) (r : row) : outcome merchant_data :=
  match row_get r "Description 1" with
  | None => Raises (KeyError "Description 1")
  | Some None => Raises AttributeError
  | Some (Some d) =>
      let desc := strip d in
      if skip_desc desc then Returns md else Returns (try_block r desc md)
  end.

Fixpoint scan_rows (rows : list row) (md : merchant_data)
  : outcome merchant_data :=
  match rows with
  | [] => Returns md
  | r :: rest => md' <- row_step md r ;; scan_rows rest md'
  end.

(** Line 142: the whole days between consecutive dates. *)
Fixpoint intervals (ds : list datetime) : list Z :=
  match ds with
  | [] => []
  | a :: tl =>
      match tl with
      | [] => []
      | b :: _ => days_between a b :: intervals tl
      end
  end.

(** Line 143. *)
Definition avg_interval_of (ivs : list Z) : Q :=
  match ivs with
  | [] => 30 # 1
  | _ :: _ => Zmean ivs
  end.

(** Lines 147-148: [while next_billing < TODAY: next_billing += timedelta]. *)
Fixpoint advance (fuel : nat) (td : Z) (now next_billing : datetime)
  {struct fuel} : outcome datetime :=
  if next_billing <? now then
    match fuel with
    | O => OutOfFuel
    | S fuel' =>
        nb <- datetime_add next_billing td ;; advance fuel' td now nb
    end
  else Returns next_billing.

(** Lines 146-148. *)
Definition predict (fuel : nat) (now last_date : datetime) (avg_interval : Q)
  : outcome datetime :=
  let td := timedelta_days avg_interval in
  next_billing <- datetime_add last_date td ;;
  advance fuel td now next_billing.

Record summary : Type := mkSummary {
  merchant : string;
  count : nat;
  avg_amount : Q;
  next_billing : datetime;
  interval : Q;
  sub_charges : list charge
}.

Definition is_charge (a : Q) : bool := Qltb a (0 # 1).

(** Lines 133-161: the body of the loop over [merchant_data.items()]. *)
Definition summarise (fuel : nat) (now : datetime) (m : string) (data : group)
  (recurring : list summary) : outcome (list summary) :=
  if (3 <=? List.length (dates data))%nat then
    let dates_sorted := sort_by Z.ltb (dates data) in
    let amts := map Qabs (filter is_charge (amounts data)) in
    match amts with
    | [] => Returns recurring
    | _ :: _ =>
        let avg := Qmean amts in
        let last_date := last dates_sorted 0 in
        let avg_interval := avg_interval_of (intervals dates_sorted) in
        nb <- predict fuel now last_date avg_interval ;;
        let charges_sorted :=
          sort_by (fun y x => c_date x <? c_date y)
                  (filter (fun c => is_charge (c_amount c)) (charges data)) in
        Returns (recurring ++
                 [mkSummary m (List.length dates_sorted) avg nb avg_interval
                            charges_sorted])
    end
  else Returns recurring.

Fixpoint collect (fuel : nat) (now : datetime) (md : merchant_data)
  (recurring : list summary) : outcome (list summary) :=
  match md with
  | [] => Returns recurring
  | (m, data) :: rest =>
      recurring' <- summarise fuel now m data recurring ;;
      collect fuel now rest recurring'
  end.

(** Lines 106-165.  [now] is the module-level [TODAY]; [file] is the list of
    rows that [csv.DictReader] yields. *)
Definition parse_transactions (fuel : nat) (now : datetime) (file : list row)
  : outcome (list summary) :=
  md <- scan_rows file [] ;;
  recurring <- collect fuel now md [] ;;
  Returns (sort_by (desc_by count) recurring).

End Aggregator.

(** ** The renderer: what identifies an item in the generated document *)

Inductive urgency : Type := urgent | soon | ok.

Record item : Type := mkItem {
  data_id : nat;
  item_merchant : string;
  item_next : datetime;
  interval_days : Z;
  urgency_class : urgency;
  shown_charges : list charge
}.

(** The key under which the generated script persists completion state. *)
Definition storage_key : string := "completed".

(** Lines 248-268 for one summary. *)
Definition render_item (now : datetime) (i : nat) (s : summary) : item :=
  let days_until := days_between now (next_billing s) in
  mkItem i (merchant s) (next_billing s)
         (Z.quot (Qnum (interval s)) (Z.pos (Qden (interval s))))
         (if days_until <? 7 then urgent
          else if days_until <? 14 then soon else ok)
         (firstn 10 (sub_charges s)).

Fixpoint enumerate {A : Type} (i : nat) (l : list A) : list (nat * A) :=
  match l with
  | [] => []
  | x :: l' => (i, x) :: enumerate (S i) l'
  end.

(** [generate_html] as far as the items of the document are concerned.
    Line 247: [for i, item in enumerate(subscriptions[:30])]. *)
Definition generate_html (now : datetime) (subscriptions : list summary)
  : list item :=
  map (fun p => render_item now (fst p) (snd p))
      (enumerate 0 (firstn 30 subscriptions)).

(** Lines 424 and 429 of [main]: parse, then render. *)
Definition main {lib : PyLib} (fuel : nat) (now : datetime) (file : list row)
  : outcome (list item) :=
  subscriptions <- parse_transactions fuel now file ;;
  Returns (generate_html now subscriptions).

(** ** An instance of the library calls for ASCII text

    [ascii_strip] removes the ASCII characters for which [str.isspace] holds;
    [strptime_mdY] accepts what the regular expression of ['%m/%d/%Y']
    accepts on ASCII input and what [datetime] then accepts; [decimal_float]
    reads the plain decimal literals (sign, digits, an optional point) and
    refuses every other string. *)

Definition is_space (c : ascii) : bool :=
  let n := N_of_ascii c in
  ((9 <=? n) && (n <=? 13) || (28 <=? n) && (n <=? 32))%N.

Fixpoint lstrip (s : string) : string :=
  match s with
  | EmptyString => EmptyString
  | String c s' => if is_space c then lstrip s' else s
  end.

Fixpoint rstrip (s : string) : string :=
  match s with
  | EmptyString => EmptyString
  | String c s' =>
      match rstrip s' with
      | EmptyString => if is_space c then EmptyString else String c EmptyString
      | t => String c t
      end
  end.

Definition ascii_strip (s : string) : string := rstrip (lstrip s).

Definition digit_of (c : ascii) : option Z :=
  let n := Z.of_N (N_of_ascii c) in
  if (48 <=? n) && (n <=? 57) then Some (n - 48) else None.

(** The value of a string of decimal digits read after [acc]. *)
Fixpoint digits_from (acc : Z) (s : string) : option Z :=
  match s with
  | EmptyString => Some acc
  | String c s' =>
      match digit_of c with
      | Some d => digits_from (10 * acc + d) s'
      | None => None
      end
  end.

Definition decimal_value (s : string) : option Z :=
  if nonempty s then digits_from 0 s else None.

(** Splitting at the first occurrence of [sep]. *)
Fixpoint split_at (sep : ascii) (s : string) : option (string * string) :=
  match s with
  | EmptyString => None
  | String c s' =>
      if Ascii.eqb c sep then Some (EmptyString, s')
      else match split_at sep s' with
           | Some (a, b) => Some (String c a, b)
           | None => None
           end
  end.

Definition is_leap (y : Z) : bool :=
  (y mod 4 =? 0) && (negb (y mod 100 =? 0) || (y mod 400 =? 0)).

Definition days_in_month (y m : Z) : Z :=
  if m =? 2 then (if is_leap y then 29 else 28)
  else if (m =? 4) || (m =? 6) || (m =? 9) || (m =? 11) then 30
  else 31.

Definition days_before_year (y : Z) : Z :=
  let p := y - 1 in 365 * p + p / 4 - p / 100 + p / 400.

Fixpoint days_before_month (y : Z) (m : nat) : Z :=
  match m with
  | O => 0
  | S m' => days_before_month y m' + days_in_month y (Z.of_nat m)
  end.

(** Midnight of the given day of the proleptic Gregorian calendar. *)
Definition date_us (y m d : Z) : datetime :=
  (days_before_year y + days_before_month y (Z.to_nat (m - 1)) + (d - 1))
  * us_per_day.

(** [%m]: [1[0-2]|0[1-9]|[1-9]]. *)
Definition month_field (s : string) : option Z :=
  if (String.length s <=? 2)%nat then
    match decimal_value s with
    | Some v => if (1 <=? v) && (v <=? 12) then Some v else None
    | None => None
    end
  else None.

(** [%d]: [3[01]|[12]\d|0[1-9]|[1-9]| [1-9]]. *)
Definition day_field (s : string) : option Z :=
  let digits := match s with
                | String " " (String c EmptyString) => String c EmptyString
                | _ => s
                end in
  if (String.length digits <=? 2)%nat then
    match decimal_value digits with
    | Some v => if (1 <=? v) && (v <=? 31) then Some v else None
    | None => None
    end
  else None.

(** [%Y]: [\d\d\d\d]. *)
Definition year_field (s : string) : option Z :=
  if (String.length s =? 4)%nat then decimal_value s else None.

Definition strptime_mdY (s : string) : option datetime :=
  match split_at "/" s with
  | None => None
  | Some (ms, rest) =>
      match split_at "/" rest with
      | None => None
      | Some (ds, ys) =>
          match month_field ms, day_field ds, year_field ys with
          | Some m, Some d, Some y =>
              if (1 <=? y) && (d <=? days_in_month y m)
              then Some (date_us y m d) else None
          | _, _, _ => None
          end
      end
  end.

Definition unsigned_decimal (s : string) : option Q :=
  match split_at "." s with
  | None =>
      match decimal_value s with
      | Some v => Some (inject_Z v)
      | None => None
      end
  | Some (ip, fp) =>
      if nonempty ip || nonempty fp then
        match digits_from 0 (ip ++ fp) with
        | Some v => Some (Qred (inject_Z v / inject_Z (10 ^ Z.of_nat (String.length fp))))
        | None => None
        end
      else None
  end.

Definition decimal_float (s : string) : option Q :=
  match s with
  | String "-" s' =>
      match unsigned_decimal s' with
      | Some q => Some (- q)%Q
      | None => None
      end
  | String "+" s' => unsigned_decimal s'
  | _ => unsigned_decimal s
  end.

#[export] Instance ascii_lib : PyLib := {
  strip := ascii_strip;
  strptime := strptime_mdY;
  float := decimal_float
}.

(** An empty cell. *)
Definition no_text : string := EmptyString.

(** A row of the expected shape; the two columns the code never reads
    ([Account Type], [Account Number]) are left out. *)
Definition mk_row (date desc cad usd : string) : row :=
  [ ("Transaction Date"%string, Some date);
    ("Description 1"%string, Some desc);
    ("CAD$"%string, Some cad);
    ("USD$"%string, Some usd) ].

(** A datetime from its calendar fields. *)
Definition datetime_of (y m d hh mm ss us : Z) : datetime :=
  date_us y m d + ((hh * 60 + mm) * 60 + ss) * 1000000 + us.

(** ** What a file says about a merchant

    These definitions read the input directly, one row at a time, without
    the dictionary: they are what the properties below are stated against. *)

Section Reading.
Context {lib : PyLib}.

(** The description under which a row is filed, if the row gets past line
    117. *)
Definition row_merchant (r : row) : option string :=
  match row_get r "Description 1" with
  | Some (Some d) => if skip_desc (strip d) then None else Some (strip d)
  | _ => None
  end.

(** The date a row adds to its merchant's [dates] list: the row passes line
    117, its date parses and its amount text is not empty. *)
Definition row_recorded (r : row) : option (string * datetime * string) :=
  match row_merchant r, row_date r, row_amount r with
  | Some m, Some date, Some amount =>
      if nonempty amount then Some (m, date, amount) else None
  | _, _, _ => None
  end.

(** A successfully parsed transaction record: date and amount both parse. *)
Definition row_record (r : row) : option (string * charge) :=
  match row_recorded r with
  | Some (m, date, amount) =>
      match float amount with
      | Some a => Some (m, mkCharge date a)
      | None => None
      end
  | None => None
  end.

(** The rows that leave a date but no amount: [float] failed after the date
    had been appended. *)
Definition row_partial (r : row) : bool :=
  match row_recorded r with
  | Some (_, _, amount) =>
      match float amount with Some _ => false | None => true end
  | None => false
  end.

Definition recorded_dates (m : string) (file : list row) : list datetime :=
  flat_map (fun r => match row_recorded r with
                     | Some (m', date, _) =>
                         if String.eqb m' m then [date] else []
                     | None => []
                     end) file.

Definition records (m : string) (file : list row) : list charge :=
  flat_map (fun r => match row_record r with
                     | Some (m', c) => if String.eqb m' m then [c] else []
                     | None => []
                     end) file.

Definition files_under (m : string) (r : row) : bool :=
  match row_recorded r with
  | Some (m', _, _) => String.eqb m' m
  | None => false
  end.

(** The position of the first row that is filed under [m]; the length of
    the file when there is none. *)
Fixpoint first_seen (m : string) (file : list row) : nat :=
  match file with
  | [] => O
  | r :: rest => if files_under m r then O else S (first_seen m rest)
  end.

(** Every row has a text in its description column. *)
Definition described (file : list row) : Prop :=
  forall r, In r file -> exists d, row_get r "Description 1" = Some (Some d).

End Reading.

(** [a] occurs at some position strictly before an occurrence of [b]. *)
Definition precedes {A : Type} (a b : A) (l : list A) : Prop :=
  exists l1 l2 l3, l = l1 ++ a :: l2 ++ b :: l3.

(** The group a file builds for a merchant, read off the rows. *)
Definition group_of {lib : PyLib} (m : string) (file : list row) : option group :=
  match recorded_dates m file with
  | [] => None
  | ds => Some (mkGroup ds (map c_amount (records m file)) (records m file))
  end.

(** The mean of the day gaps of a list of dates taken in ascending order. *)
Definition mean_gap (ds : list datetime) : Q :=
  Zmean (intervals (sort_by Z.ltb ds)).

(** The test of lines 133 and 137 on a group. *)
Definition qualifies (g : group) : bool :=
  (3 <=? List.length (dates g))%nat
  && match filter is_charge (amounts g) with [] => false | _ :: _ => true end.

(** The summary that lines 134-161 build from a group, given the date the
    prediction loop returned. *)
Definition summary_of (m : string) (g : group) (nb : datetime) : summary :=
  let dates_sorted := sort_by Z.ltb (dates g) in
  mkSummary m (List.length dates_sorted)
    (Qmean (map Qabs (filter is_charge (amounts g))))
    nb
    (avg_interval_of (intervals dates_sorted))
    (sort_by (fun y x => c_date x <? c_date y)
             (filter (fun c => is_charge (c_amount c)) (charges g))).

(** The prediction that lines 146-148 run for a group. *)
Definition predict_for (fuel : nat) (now : datetime) (g : group)
  : outcome datetime :=
  let dates_sorted := sort_by Z.ltb (dates g) in
  predict fuel now (last dates_sorted 0)
          (avg_interval_of (intervals dates_sorted)).

(** No row of the file leaves a date without an amount. *)
Definition no_partial {lib : PyLib} (file : list row) : Prop :=
  forall r, In r file -> row_partial r = false.

(** The dates of all the records of a merchant, charges and credits alike,
    and the dates of its charges only. *)
Definition record_dates {lib : PyLib} (m : string) (file : list row)
  : list datetime :=
  map c_date (records m file).

Definition charge_dates {lib : PyLib} (m : string) (file : list row)
  : list datetime :=
  map c_date (filter (fun c => is_charge (c_amount c)) (records m file)).

(** The step of the prediction loop for a group, the date it starts from,
    and the one situation in which the loop cannot be left: a zero step
    with the latest date before [now]. *)
Definition step_of (g : group) : Z :=
  timedelta_days (avg_interval_of (intervals (sort_by Z.ltb (dates g)))).

Definition latest_of (g : group) : datetime :=
  last (sort_by Z.ltb (dates g)) 0.

Definition stuck (now : datetime) (g : group) : bool :=
  (step_of g =? 0) && (latest_of g <? now).

(** ** The vendor links *)

(** Lines 39-87: the table of billing pages, in the order of the source. *)
Definition urls : list (string * string) :=
  [
    ("Amazon Web Services www.amazon.ca",
     "https://console.aws.amazon.com/billing/home#/paymentmethods");
    ("TRELLO.COM* ATLASSIAN ATLASSIAN.COM",
     "https://trello.com/login");
    ("1PASSWORD TORONTO",
     "https://my.1password.com/billing");
    ("ZOOM.COM 888-799-9666 ZOOM.US",
     "https://zoom.us/billing");
    ("MIDAS ALARM & SECURITY LT BURNABY",
     "https://www.midasalarm.com/contact");
    ("ADVANCED PARKING AUTO 877-909-6199",
     "https://www.advancedparking.ca/contact");
    ("GREENVIEW DATA INC. 888-576-4949",
     "https://www.greenviewdata.com/clientarea.php");
    ("CLOUD LINUX, INC CLN.CLOUDLINU",
     "https://cln.cloudlinux.com/console/billing");
    ("Amazon.ca Prime Member amazon.ca/pri",
     "https://www.amazon.ca/mc/yourpayments");
    ("SMTP2GO, I* SMTP2GO EM SMTP2GO.COM",
     "https://www.smtp2go.com/settings/billing/");
    ("4TE*ACCOUNTEDGE 973-586-2200",
     "https://www.accountedge.com/my-account");
    ("OPSSHIELD LLP KOCHI",
     "https://opsshield.com/login");
    ("CLOUDFLARE CLOUDFLARE.CO",
     "https://dash.cloudflare.com/billing");
    ("NINJAONE, LLC NINJAONE.COM",
     "https://app.ninjarmm.com/#/settings/billing");
    ("GOOGLE *ADS8657284425 855-222-8603",
     "https://ads.google.com/aw/billing");
    ("GOOGLE*ADS8657284425 CC GOOGLE.COM",
     "https://ads.google.com/aw/billing");
    ("OPENAI *CHATGPT SUBSCR OPENAI.COM",
     "https://platform.openai.com/settings/organization/billing/overview");
    ("GOOGLE *GSUITE_neocode 855-222-8603",
     "https://admin.google.com/ac/billing");
    ("GOOGLE *Workspace_neoc 855-222-8603",
     "https://admin.google.com/ac/billing");
    ("HUBSTAFF.COM HUBSTAFF.COM",
     "https://app.hubstaff.com/organizations/billing");
    ("BACKBLAZE INC BACKBLAZE.COM",
     "https://secure.backblaze.com/billing.htm");
    ("ONEPROVIDER 5142860253",
     "https://oneprovider.com/portal/clientarea.php");
    ("LINODE . AKAMAI 6093807100",
     "https://cloud.linode.com/account/billing");
    ("FILEMAKER 800-325-2747",
     "https://www.claris.com/account/");
    ("INBOX ZERO INC. GETINBOXZERO.",
     "https://www.getinboxzero.com/settings");
    ("SCRAPFLY SCRAPFLY.IO",
     "https://scrapfly.io/dashboard/billing");
    ("IDIGITAL INTERNET INC VANCOUVER",
     "https://www.idigital.ca/clientarea.php");
    ("NEW DEMOCRATIC PARTY 604-430-8600",
     "https://www.ndp.ca/donate");
    ("WALMART.CA MISSISSAUGA",
     "https://www.walmart.ca/account");
    ("WALMART DELIVERY PASS REN MISSISSAUGA",
     "https://www.walmart.ca/account");
    ("STARBUCKS 8007827282 800-782-7282",
     "https://www.starbucks.ca/account");
    ("CS *STARBUCKS GC 877-850-1977",
     "https://www.starbucks.ca/account");
    ("PADDLE.NET* DECODO LONDON",
     "https://vendors.paddle.com/subscriptions");
    ("PADDLE.NET* SMARTPROXY LONDON",
     "https://vendors.paddle.com/subscriptions");
    ("PADDLE.NET* SUPERDUPER LONDON",
     "https://vendors.paddle.com/subscriptions");
    ("MEGA LIMITED AUCKLAND",
     "https://mega.nz/fm/account/plan");
    ("SYNC 18553677962",
     "https://cp.sync.com/billing");
    ("SYNC.COM* SYNC.COM TORONTO",
     "https://cp.sync.com/billing");
    ("TASKRABBIT* RECEIPT VANCOUVER",
     "https://www.taskrabbit.com/account/payment");
    ("OPENVPN SUBSCRIPTION OPENVPN.NET",
     "https://myaccount.openvpn.com/");
    ("Microsoft*Microsoft 365 F Mississauga",
     "https://account.microsoft.com/services/");
    ("ELEVENLABS.IO ELEVENLABS.IO",
     "https://elevenlabs.io/app/settings/billing");
    ("ANTHROPIC ANTHROPIC.COM",
     "https://console.anthropic.com/settings/billing");
    ("PROTON AG* PROTON AG GENEVA",
     "https://account.proton.me/u/0/mail/dashboard");
    ("SSLSTORE SAINT PETERSB",
     "https://www.thesslstore.com/client/login.php");
    ("CHEAPSSLWEB.COM SIGNMYCODE.CO",
     "https://cheapsslweb.com/client/login.php");
    ("CERTERALLC* CHEAPSSLWE SIGNMYCODE.CO",
     "https://cheapsslweb.com/client/login.php")
  ]%string.

(** [urls[merchant]], with [None] when [merchant not in urls]. *)
Fixpoint urls_get (merchant : string) (table : list (string * string))
  : option string :=
  match table with
  | [] => None
  | (k, v) :: rest =>
      if String.eqb k merchant then Some v else urls_get merchant rest
  end.

(** [s.replace(old, new)] for an [old] of one character. *)
Fixpoint replace_char (old : ascii) (new : string) (s : string) : string :=
  match s with
  | EmptyString => EmptyString
  | String c s' =>
      if Ascii.eqb c old then (new ++ replace_char old new s')%string
      else String c (replace_char old new s')
  end.

(** Lines 37-104. *)
Definition get_vendor_url (merchant : string) : string :=
  match urls_get merchant urls with
  | Some url => url
  | None =>
      if contains "CPANEL" merchant
      then "https://store.cpanel.net/view-invoice"%string
      else if contains "Audible" merchant
      then "https://www.audible.ca/account/payments"%string
      else if contains "GODADDY" merchant
      then "https://account.godaddy.com/billing"%string
      else if contains "FS *" merchant
      then "https://fsprg.com/account"%string
      else ("https://www.google.com/search?q="
            ++ replace_char " " "+" merchant
            ++ "+billing+payment+method")%string
  end.

(** Line 283: the address of the secondary button. *)
Definition search_link (merchant : string) : string :=
  ("https://www.google.com/search?q="
   ++ replace_char "*" EmptyString (replace_char " " "+" merchant)
   ++ "+update+payment+method")%string.

(** [c in s] for a character [c]. *)
Fixpoint has_char (c : ascii) (s : string) : bool :=
  match s with
  | EmptyString => false
  | String c' s' => Ascii.eqb c' c || has_char c s'
  end.

(** ** Sample inputs *)

(** 2024-01-02T09:30:00, a moment at which the samples are generated. *)
Definition sample_now : datetime := datetime_of 2024 1 2 9 30 0 0.

(** Two charges and one credit of one merchant. *)
Definition file_with_credit : list row :=
  [ mk_row "1/1/2023" "GYM" "-4" no_text;
    mk_row "2/1/2023" "GYM" no_text "-8";
    mk_row "3/1/2023" "GYM" "3" no_text ].

Definition gym_summary : summary :=
  mkSummary "GYM" 3 (12 # 2) (datetime_of 2024 1 19 12 0 0 0) (59 # 2)
    [ mkCharge (date_us 2023 2 1) (-8 # 1);
      mkCharge (date_us 2023 1 1) (-4 # 1) ].

Definition out_with_credit : list summary := [gym_summary].

(** Three merchants whose rows are interleaved; [C] has one row more. *)
Definition file_three_merchants : list row :=
  [ mk_row "1/1/2023" "A" "-5" no_text;
    mk_row "1/2/2023" "B" "-5" no_text;
    mk_row "1/3/2023" "C" no_text "-1";
    mk_row "2/1/2023" "C" "-5" no_text;
    mk_row "2/2/2023" "B" "-5" no_text;
    mk_row "2/3/2023" "A" no_text "-1";
    mk_row "3/1/2023" "B" "-5" no_text;
    mk_row "3/2/2023" "A" "-5" no_text;
    mk_row "3/3/2023" "C" no_text "-1";
    mk_row "4/3/2023" "C" no_text "-1" ].

Definition out_three_merchants : list summary :=
  [ mkSummary "C" 4 (8 # 4) (datetime_of 2024 1 28 0 0 0 0) (90 # 3)
      [ mkCharge (date_us 2023 4 3) (-1 # 1);
        mkCharge (date_us 2023 3 3) (-1 # 1);
        mkCharge (date_us 2023 2 1) (-5 # 1);
        mkCharge (date_us 2023 1 3) (-1 # 1) ];
    mkSummary "A" 3 (11 # 3) (datetime_of 2024 1 26 0 0 0 0) (60 # 2)
      [ mkCharge (date_us 2023 3 2) (-5 # 1);
        mkCharge (date_us 2023 2 3) (-1 # 1);
        mkCharge (date_us 2023 1 1) (-5 # 1) ];
    mkSummary "B" 3 (15 # 3) (datetime_of 2024 1 14 0 0 0 0) (58 # 2)
      [ mkCharge (date_us 2023 3 1) (-5 # 1);
        mkCharge (date_us 2023 2 2) (-5 # 1);
        mkCharge (date_us 2023 1 2) (-5 # 1) ] ].

(** A row with a valid description and date whose two amount columns hold
    nothing but white space. *)
Definition blank_amount_row : row := mk_row "1/15/2024" "GYM" "  " no_text.

(** Three charges ten days apart, and the midnight ten days after the last
    one. *)
Definition file_every_ten_days : list row :=
  [ mk_row "1/1/2024" "GYM" "-5" no_text;
    mk_row "1/11/2024" "GYM" "-5" no_text;
    mk_row "1/21/2024" "GYM" "-5" no_text ].

Definition midnight_jan_31 : datetime := datetime_of 2024 1 31 0 0 0 0.

(** Three charges of one merchant on one day, and a later moment. *)
Definition file_same_day : list row :=
  [ mk_row "1/5/2024" "GYM" "-5" no_text;
    mk_row "1/5/2024" "GYM" "-5" no_text;
    mk_row "1/5/2024" "GYM" "-5" no_text ].

Definition february_morning : datetime := datetime_of 2024 2 1 9 30 0 0.

(** Two charges and a third row whose amount is not a number. *)
Definition file_bad_amount : list row :=
  [ mk_row "11/1/2023" "GYM" "-5" no_text;
    mk_row "12/1/2023" "GYM" "-5" no_text;
    mk_row "1/1/2024" "GYM" "abc" no_text ].

(** Two charges followed by a credit ten days after the second charge. *)
Definition file_late_credit : list row :=
  [ mk_row "1/1/2024" "GYM" "-5" no_text;
    mk_row "1/21/2024" "GYM" "-5" no_text;
    mk_row "1/31/2024" "GYM" "5" no_text ].

Definition late_credit_summary : summary :=
  mkSummary "GYM" 3 (10 # 2) (date_us 2024 2 15) (30 # 2)
    [ mkCharge (date_us 2024 1 21) (-5 # 1);
      mkCharge (date_us 2024 1 1) (-5 # 1) ].

(** A file whose description column is headed [Description]. *)
Definition file_wrong_header : list row :=
  [ [ ("Transaction Date"%string, Some "1/1/2024"%string);
      ("Description"%string, Some "GYM"%string);
      ("CAD$"%string, Some "-5"%string);
      ("USD$"%string, Some no_text) ] ].

(** A file in which no row has both a date and an amount that parse. *)
Definition file_garbled : list row :=
  [ mk_row "2024-01-01" "GYM" "-5" no_text;
    mk_row "1/21/2024" "GYM" "n/a" no_text;
    mk_row "1/31/2024" "GYM" "$5" no_text;
    mk_row "2/31/2024" "GYM" "-5" no_text;
    mk_row "2/21/2024" "GYM" "five" no_text ].

(** A row whose date is written year first. *)
Definition bad_date_row : row := mk_row "2024-01-01" "GYM" "-5" no_text.

(** A row with both amount columns filled. *)
Definition two_amounts_row : row := mk_row "1/1/2023" "GYM" "-4" "-9".

(** The rows of [file_with_credit] among rows of another merchant. *)
Definition file_with_credit_and_more : list row :=
  [ mk_row "12/24/2022" "CAFE" "-3" no_text;
    mk_row "1/1/2023" "GYM" "-4" no_text;
    mk_row "2/1/2023" "GYM" no_text "-8";
    mk_row "2/2/2023" "CAFE" "-3" no_text;
    mk_row "3/1/2023" "GYM" "3" no_text ].

(** The group that [file_with_credit] builds, and the item of its summary. *)
Definition gym_group : group :=
  mkGroup
    [ date_us 2023 1 1; date_us 2023 2 1; date_us 2023 3 1 ]
    [ -4 # 1; -8 # 1; 3 # 1 ]%Q
    [ mkCharge (date_us 2023 1 1) (-4 # 1);
      mkCharge (date_us 2023 2 1) (-8 # 1);
      mkCharge (date_us 2023 3 1) (3 # 1) ].

Definition gym_item : item := render_item sample_now 0 gym_summary.


(** * Properties *)

(** ** Outcomes *)

Lemma bind_returns {A B : Type} (m : outcome A) (k : A -> outcome B) (b : B) :
  bind m k = Returns b -> exists a, m = Returns a /\ k a = Returns b.
Proof.
  destruct m as [a | e |]; simpl; intros H; try discriminate.
  exists a; split; [reflexivity | exact H].
Qed.

(** ** The dictionary *)

Lemma md_get_update (d k : string) (f : group -> group) (md : merchant_data) :
  md_get k (md_update d f md) =
  if String.eqb d k
  then Some (f (match md_get d md with Some g => g | None => empty_group end))
  else md_get k md.
Proof.
  induction md as [| [k' g] rest IH]; simpl.
  - reflexivity.
  - destruct (String.eqb k' d) eqn:Ekd; simpl.
    + apply String.eqb_eq in Ekd; subst k'.
      destruct (String.eqb d k); reflexivity.
    + rewrite IH. destruct (String.eqb d k) eqn:Edk.
      * apply String.eqb_eq in Edk; subst k. rewrite Ekd. reflexivity.
      * reflexivity.
Qed.

Lemma md_get_In (k : string) (md : merchant_data) :
  In k (map fst md) <-> md_get k md <> None.
Proof.
  induction md as [| [k' g] rest IH]; simpl.
  - split; [intros [] | intros H; now elim H].
  - destruct (String.eqb k' k) eqn:E.
    + apply String.eqb_eq in E. split; [discriminate | auto].
    + apply String.eqb_neq in E. rewrite <- IH. split; [intros [H | H] | auto].
      * contradiction.
      * exact H.
Qed.

Lemma md_get_member (k : string) (g : group) (md : merchant_data) :
  NoDup (map fst md) -> In (k, g) md -> md_get k md = Some g.
Proof.
  induction md as [| [k' g'] rest IH]; simpl; intros Hnd Hin; [contradiction |].
  inversion Hnd as [| ? ? Hnot Hnd']; subst.
  destruct Hin as [Heq | Hin].
  - inversion Heq; subst. now rewrite String.eqb_refl.
  - destruct (String.eqb k' k) eqn:E.
    + apply String.eqb_eq in E; subst k'.
      elim Hnot. apply in_map_iff. exists (k, g). split; [reflexivity | exact Hin].
    + now apply IH.
Qed.

Lemma keys_update (d : string) (f : group -> group) (md : merchant_data) :
  map fst (md_update d f md) =
  if in_dec string_dec d (map fst md) then map fst md else map fst md ++ [d].
Proof.
  induction md as [| [k g] rest IH]; simpl; [reflexivity |].
  destruct (String.eqb k d) eqn:E; simpl.
  - apply String.eqb_eq in E; subst k.
    destruct (string_dec d d) as [e | n]; [reflexivity | now elim n].
  - apply String.eqb_neq in E.
    destruct (string_dec k d) as [e | n]; [contradiction |].
    rewrite IH. destruct (in_dec string_dec d (map fst rest)); reflexivity.
Qed.

(** ** The row loop *)

Section Scanning.
Context {lib : PyLib}.

Lemma row_step_spec (md : merchant_data) (r : row) :
  row_step md r =
  match row_get r "Description 1" with
  | None => Raises (KeyError "Description 1")
  | Some None => Raises AttributeError
  | Some (Some _) =>
      Returns (match row_recorded r with
               | Some (m, date, amount) => store m date amount md
               | None => md
               end)
  end.
Proof.
  unfold row_step, row_recorded, row_merchant, try_block.
  destruct (row_get r "Description 1") as [[d |] |]; try reflexivity.
  destruct (skip_desc (strip d)); [reflexivity |].
  destruct (row_date r); [| reflexivity].
  destruct (row_amount r) as [amount |]; [| reflexivity].
  destruct (nonempty amount); reflexivity.
Qed.

Lemma scan_rows_app (l1 l2 : list row) (md : merchant_data) :
  scan_rows (l1 ++ l2) md = (md' <- scan_rows l1 md ;; scan_rows l2 md').
Proof.
  revert md; induction l1 as [| r l1 IH]; intros md; simpl; [reflexivity |].
  destruct (row_step md r) as [md' | e |]; simpl; auto.
Qed.

Lemma scan_rows_snoc (file : list row) (r : row) (md0 md' : merchant_data) :
  scan_rows (file ++ [r]) md0 = Returns md' ->
  exists md, scan_rows file md0 = Returns md /\ row_step md r = Returns md'.
Proof.
  rewrite scan_rows_app. intros H.
  apply bind_returns in H. destruct H as [md [H1 H2]].
  exists md. split; [exact H1 |].
  simpl in H2. destruct (row_step md r); simpl in H2; congruence.
Qed.

Lemma recorded_dates_snoc (m : string) (file : list row) (r : row) :
  recorded_dates m (file ++ [r]) =
  recorded_dates m file ++
  match row_recorded r with
  | Some (m', date, _) => if String.eqb m' m then [date] else []
  | None => []
  end.
Proof.
  unfold recorded_dates. rewrite flat_map_app. simpl. now rewrite app_nil_r.
Qed.

Lemma records_snoc (m : string) (file : list row) (r : row) :
  records m (file ++ [r]) =
  records m file ++
  match row_record r with
  | Some (m', c) => if String.eqb m' m then [c] else []
  | None => []
  end.
Proof.
  unfold records. rewrite flat_map_app. simpl. now rewrite app_nil_r.
Qed.

Lemma records_none (m : string) (file : list row) :
  recorded_dates m file = [] -> records m file = [].
Proof.
  induction file as [| r file IH]; simpl; [reflexivity |].
  intros H. apply app_eq_nil in H. destruct H as [H1 H2].
  rewrite (IH H2), app_nil_r.
  unfold row_record. destruct (row_recorded r) as [[[m' date] amount] |];
    [| reflexivity].
  destruct (String.eqb m' m) eqn:E; [discriminate |].
  destruct (float amount); simpl; [rewrite E |]; reflexivity.
Qed.

(** After the row loop, the group of a merchant holds exactly the dates,
    amounts and charges that its rows contribute, in file order. *)
Lemma scan_groups (file : list row) (md : merchant_data) :
  scan_rows file [] = Returns md ->
  forall m, md_get m md = group_of m file.
Proof.
  revert md. induction file as [| r file IH] using rev_ind; intros md H m.
  - simpl in H. inversion H; subst. reflexivity.
  - apply scan_rows_snoc in H. destruct H as [md0 [H0 Hstep]].
    specialize (IH md0 H0).
    rewrite row_step_spec in Hstep.
    destruct (row_get r "Description 1") as [[d |] |]; try discriminate.
    inversion Hstep as [Hmd]; clear Hstep.
    unfold group_of. rewrite recorded_dates_snoc, records_snoc.
    unfold row_record.
    destruct (row_recorded r) as [[[m' date] amount] |].
    + unfold store.
      destruct (String.eqb m' m) eqn:E.
      * apply String.eqb_eq in E; subst m'.
        pose proof (IH m) as IHm. unfold group_of in IHm.
        destruct (float amount) as [a |]; simpl.
        -- rewrite !md_get_update, !String.eqb_refl. rewrite IHm.
           destruct (recorded_dates m file) as [| d0 ds] eqn:Ed.
           ++ rewrite (records_none m file Ed). reflexivity.
           ++ simpl. unfold append_charge, append_amount, append_date; simpl.
              now rewrite map_app.
        -- rewrite md_get_update, String.eqb_refl. rewrite IHm.
           rewrite !app_nil_r.
           destruct (recorded_dates m file) as [| d0 ds] eqn:Ed.
           ++ rewrite (records_none m file Ed). reflexivity.
           ++ reflexivity.
      * destruct (float amount) as [a |]; simpl.
        -- rewrite !md_get_update, E, !app_nil_r. apply IH.
        -- rewrite md_get_update, E, !app_nil_r. apply IH.
    + rewrite !app_nil_r. apply IH.
Qed.

End Scanning.

(** ** Order of occurrence *)

Ltac assoc_eq :=
  repeat (rewrite <- app_assoc; simpl); try rewrite !app_nil_r; reflexivity.

Lemma precedes_cons {A : Type} (a b x : A) (l : list A) :
  precedes a b (x :: l) -> (a = x /\ In b l) \/ precedes a b l.
Proof.
  intros [l1 [l2 [l3 H]]]. destruct l1 as [| y l1]; simpl in H.
  - inversion H; subst. left. split; [reflexivity |].
    apply in_or_app. right. now left.
  - inversion H; subst. right. now exists l1, l2, l3.
Qed.

Lemma precedes_snoc {A : Type} (a b x : A) (l : list A) :
  precedes a b (l ++ [x]) -> precedes a b l \/ (In a l /\ b = x).
Proof.
  intros [l1 [l2 [l3 H]]].
  destruct (exists_last (l := b :: l3)) as [l3' [y Hy]]; [discriminate |].
  rewrite Hy in H.
  replace (l1 ++ a :: l2 ++ l3' ++ [y]) with ((l1 ++ a :: l2 ++ l3') ++ [y]) in H
    by assoc_eq.
  apply app_inj_tail in H. destruct H as [Hl Hx]. subst y.
  destruct l3' as [| z l3'].
  - simpl in Hy. inversion Hy; subst. right. split; [| reflexivity].
    rewrite app_nil_r. apply in_or_app. right. now left.
  - simpl in Hy. inversion Hy; subst. left. now exists l1, l2, l3'.
Qed.

Lemma precedes_In {A : Type} (a b : A) (l : list A) :
  precedes a b l -> In a l /\ In b l.
Proof.
  intros [l1 [l2 [l3 H]]]. subst l. split.
  - apply in_or_app. right. now left.
  - apply in_or_app. right. right. apply in_or_app. right. now left.
Qed.

Lemma precedes_weaken {A : Type} (a b : A) (l pre post : list A) :
  precedes a b l -> precedes a b (pre ++ l ++ post).
Proof.
  intros [l1 [l2 [l3 H]]]. subst l.
  exists (pre ++ l1), l2, (l3 ++ post). assoc_eq.
Qed.

Lemma precedes_split {A : Type} (a b : A) (l1 l2 : list A) :
  In a l1 -> In b l2 -> precedes a b (l1 ++ l2).
Proof.
  intros Ha Hb.
  apply in_split in Ha. destruct Ha as [p1 [p2 Ha]].
  apply in_split in Hb. destruct Hb as [q1 [q2 Hb]]. subst.
  exists p1, (p2 ++ q1), q2. assoc_eq.
Qed.

Section Order.
Context {lib : PyLib}.

Lemma first_seen_le (m : string) (file : list row) :
  (first_seen m file <= List.length file)%nat.
Proof.
  induction file as [| r file IH]; simpl; [lia |].
  destruct (files_under m r); lia.
Qed.

Lemma first_seen_snoc (m : string) (file : list row) (r : row) :
  first_seen m (file ++ [r]) =
  if (first_seen m file <? List.length file)%nat then first_seen m file
  else if files_under m r then List.length file else S (List.length file).
Proof.
  induction file as [| r' file IH]; simpl.
  - destruct (files_under m r); reflexivity.
  - destruct (files_under m r'); [reflexivity |].
    rewrite IH.
    change (S (first_seen m file) <? S (List.length file))%nat
      with (first_seen m file <? List.length file)%nat.
    destruct (first_seen m file <? List.length file)%nat; [reflexivity |].
    destruct (files_under m r); reflexivity.
Qed.

Lemma first_seen_found (m : string) (file : list row) :
  (first_seen m file < List.length file)%nat <-> recorded_dates m file <> [].
Proof.
  induction file as [| r file IH]; simpl.
  - split; [lia | intros H; now elim H].
  - unfold files_under.
    destruct (row_recorded r) as [[[m' date] amount] |]; simpl.
    + destruct (String.eqb m' m); simpl.
      * split; [discriminate | lia].
      * rewrite <- IH. lia.
    + rewrite <- IH. lia.
Qed.

Lemma first_seen_snoc_mono (a b : string) (file : list row) (r : row) :
  (first_seen a file < first_seen b file)%nat ->
  (first_seen a (file ++ [r]) < first_seen b (file ++ [r]))%nat.
Proof.
  intros H. rewrite !first_seen_snoc.
  pose proof (first_seen_le a file). pose proof (first_seen_le b file).
  destruct (first_seen a file <? List.length file)%nat eqn:Ea;
    [| apply Nat.ltb_ge in Ea; lia].
  apply Nat.ltb_lt in Ea.
  destruct (first_seen b file <? List.length file)%nat; [exact H |].
  destruct (files_under b r); lia.
Qed.

Lemma store_keys (m : string) (date : datetime) (amount : string)
  (md : merchant_data) :
  map fst (store m date amount md) =
  if in_dec string_dec m (map fst md) then map fst md else map fst md ++ [m].
Proof.
  unfold store.
  assert (Hin : forall l, In m (if in_dec string_dec m l then l else l ++ [m])).
  { intros l. destruct (in_dec string_dec m l); [assumption |].
    apply in_or_app. right. now left. }
  destruct (float amount) as [a |].
  - rewrite !keys_update.
    specialize (Hin (map fst md)).
    destruct (in_dec string_dec m
                (if in_dec string_dec m (map fst md) then map fst md
                 else map fst md ++ [m])) as [_ | n]; [| contradiction].
    destruct (in_dec string_dec m
                (if in_dec string_dec m (map fst md) then map fst md
                 else map fst md ++ [m])) as [_ | n]; [| contradiction].
    reflexivity.
  - apply keys_update.
Qed.

Lemma scan_keys_found (file : list row) (md : merchant_data) (m : string) :
  scan_rows file [] = Returns md ->
  (In m (map fst md) <-> (first_seen m file < List.length file)%nat).
Proof.
  intros H. rewrite md_get_In, (scan_groups file md H m), first_seen_found.
  unfold group_of. destruct (recorded_dates m file); split; intros H'; congruence.
Qed.

Lemma scan_keys_nodup (file : list row) (md : merchant_data) :
  scan_rows file [] = Returns md -> NoDup (map fst md).
Proof.
  revert md. induction file as [| r file IH] using rev_ind; intros md H.
  - simpl in H. inversion H; subst. constructor.
  - apply scan_rows_snoc in H. destruct H as [md0 [H0 Hstep]].
    specialize (IH md0 H0). rewrite row_step_spec in Hstep.
    destruct (row_get r "Description 1") as [[d |] |]; try discriminate.
    inversion Hstep as [Hmd]; clear Hstep.
    destruct (row_recorded r) as [[[m date] amount] |]; [| exact IH].
    rewrite store_keys.
    destruct (in_dec string_dec m (map fst md0)) as [i | n]; [exact IH |].
    apply NoDup_app; [exact IH | constructor; [intros [] | constructor] |].
    intros k Hk [Hm | []]. subst k. contradiction.
Qed.

End Order.

Section KeyOrder.
Context {lib : PyLib}.

(** The keys of [merchant_data] are in the order in which the merchants are
    first filed. *)
Lemma scan_keys_order (file : list row) (md : merchant_data) (a b : string) :
  scan_rows file [] = Returns md ->
  precedes a b (map fst md) ->
  (first_seen a file < first_seen b file)%nat.
Proof.
  revert md. induction file as [| r file IH] using rev_ind; intros md H Hp.
  - simpl in H. inversion H; subst. destruct Hp as [l1 [l2 [l3 Hp]]].
    simpl in Hp. destruct l1; discriminate.
  - apply scan_rows_snoc in H. destruct H as [md0 [H0 Hstep]].
    specialize (IH md0 H0). rewrite row_step_spec in Hstep.
    destruct (row_get r "Description 1") as [[d |] |]; try discriminate.
    inversion Hstep as [Hmd]; clear Hstep. subst md.
    destruct (row_recorded r) as [[[m date] amount] |] eqn:Er;
      [| now apply first_seen_snoc_mono, IH].
    rewrite store_keys in Hp.
    destruct (in_dec string_dec m (map fst md0)) as [i | n];
      [now apply first_seen_snoc_mono, IH |].
    apply precedes_snoc in Hp. destruct Hp as [Hp | [Ha Hb]];
      [now apply first_seen_snoc_mono, IH |].
    subst b.
    apply (scan_keys_found file md0 a H0) in Ha.
    assert (Hm : ~ (first_seen m file < List.length file)%nat)
      by (intros Hm; apply n; now apply (scan_keys_found file md0 m H0)).
    rewrite !first_seen_snoc.
    apply Nat.ltb_lt in Ha. rewrite Ha. apply Nat.ltb_lt in Ha.
    destruct (first_seen m file <? List.length file)%nat eqn:Em;
      [apply Nat.ltb_lt in Em; contradiction |].
    unfold files_under. rewrite Er, String.eqb_refl. exact Ha.
Qed.

End KeyOrder.

(** ** Stable insertion sort *)

Section SortMembers.
Context {A : Type}.
Variable before : A -> A -> bool.

Lemma insert_by_In (x y : A) (l : list A) :
  In y (insert_by before x l) <-> y = x \/ In y l.
Proof.
  induction l as [| z l IH]; simpl.
  - split; [intros [H | []]; auto | intros [H | []]; auto].
  - destruct (before z x); simpl; [rewrite IH |]; intuition congruence.
Qed.

Lemma sort_by_In (y : A) (l : list A) :
  In y (sort_by before l) <-> In y l.
Proof.
  induction l as [| x l IH]; simpl; [tauto |].
  rewrite insert_by_In, IH. intuition congruence.
Qed.

Lemma insert_by_length (x : A) (l : list A) :
  List.length (insert_by before x l) = S (List.length l).
Proof.
  induction l as [| z l IH]; simpl; [reflexivity |].
  destruct (before z x); simpl; [now rewrite IH | reflexivity].
Qed.

Lemma sort_by_length (l : list A) :
  List.length (sort_by before l) = List.length l.
Proof.
  induction l as [| x l IH]; simpl; [reflexivity |].
  now rewrite insert_by_length, IH.
Qed.

End SortMembers.

Section SortFacts.
Context {A : Type}.
Variable key : A -> nat.

Lemma insert_by_sorted (x : A) (l : list A) :
  StronglySorted (fun a b => (key b <= key a)%nat) l ->
  StronglySorted (fun a b => (key b <= key a)%nat) (insert_by (desc_by key) x l).
Proof.
  induction 1 as [| z l Hs IH Hz]; simpl.
  - constructor; constructor.
  - unfold desc_by at 1. destruct (key x <? key z)%nat eqn:E.
    + apply Nat.ltb_lt in E. constructor; [exact IH |].
      apply Forall_forall. intros y Hy. apply insert_by_In in Hy.
      destruct Hy as [Hy | Hy]; [subst y; lia |].
      rewrite Forall_forall in Hz. now apply Hz.
    + apply Nat.ltb_ge in E. constructor; [now constructor |].
      constructor; [exact E |].
      rewrite Forall_forall in Hz |- *. intros y Hy.
      specialize (Hz y Hy). lia.
Qed.

Lemma sort_by_sorted (l : list A) :
  StronglySorted (fun a b => (key b <= key a)%nat) (sort_by (desc_by key) l).
Proof.
  induction l as [| x l IH]; simpl; [constructor | now apply insert_by_sorted].
Qed.

(** Insertion puts [x] in front of every element with the same key. *)
Lemma insert_by_precedes (x a b : A) (l : list A) :
  precedes a b (insert_by (desc_by key) x l) -> key a = key b ->
  (a = x /\ In b l) \/ precedes a b l.
Proof.
  induction l as [| z l IH]; simpl; intros Hp Hk.
  - destruct Hp as [l1 [l2 [l3 Hp]]].
    destruct l1 as [| ? [| ? ?]]; simpl in Hp; try discriminate.
    inversion Hp as [[Hx Hnil]]. destruct l2; discriminate.
  - unfold desc_by in Hp at 1. destruct (key x <? key z)%nat eqn:E.
    + apply Nat.ltb_lt in E. apply precedes_cons in Hp.
      destruct Hp as [[Haz Hb] | Hp].
      * subst z. apply insert_by_In in Hb. destruct Hb as [Hb | Hb].
        -- subst b. lia.
        -- right. apply (precedes_split a b [a] l); [now left | exact Hb].
      * destruct (IH Hp Hk) as [[Hax Hb] | Hp'].
        -- left. split; [exact Hax | now right].
        -- right. apply (precedes_weaken a b l [z] []) in Hp'.
           now rewrite app_nil_r in Hp'.
    + apply precedes_cons in Hp. destruct Hp as [[Hax Hb] | Hp].
      * left. split; [exact Hax | exact Hb].
      * right. exact Hp.
Qed.

(** Stability: elements with equal keys keep their relative order. *)
Lemma sort_by_stable (a b : A) (l : list A) :
  precedes a b (sort_by (desc_by key) l) -> key a = key b -> precedes a b l.
Proof.
  induction l as [| x l IH]; simpl; intros Hp Hk.
  - destruct Hp as [l1 [l2 [l3 Hp]]]. destruct l1; discriminate.
  - apply insert_by_precedes in Hp; [| exact Hk].
    destruct Hp as [[Hax Hb] | Hp].
    + subst x. apply (proj1 (sort_by_In _ _ _)) in Hb.
      apply (precedes_split a b [a] l); [now left | exact Hb].
    + apply IH in Hp; [| exact Hk].
      apply (precedes_weaken a b l [x] []) in Hp.
      now rewrite app_nil_r in Hp.
Qed.

End SortFacts.

(** ** The prediction loop *)

Lemma datetime_add_returns (d td r : Z) :
  datetime_add d td = Returns r -> r = d + td /\ 0 <= r <= datetime_max.
Proof.
  unfold datetime_add.
  destruct ((d + td <? 0) || (datetime_max <? d + td)) eqn:E; [discriminate |].
  intros H. inversion H; subst.
  apply orb_false_iff in E. destruct E as [E1 E2].
  apply Z.ltb_ge in E1. apply Z.ltb_ge in E2. lia.
Qed.

Lemma advance_reaches (fuel : nat) (td now nb r : Z) :
  advance fuel td now nb = Returns r ->
  now <= r /\ exists k : nat, r = nb + Z.of_nat k * td.
Proof.
  revert nb. induction fuel as [| fuel IH]; intros nb; simpl;
    destruct (nb <? now) eqn:E; try discriminate.
  - intros H. inversion H; subst. apply Z.ltb_ge in E.
    split; [exact E | exists O; simpl; lia].
  - intros H. apply bind_returns in H. destruct H as [nb' [Hadd Hadv]].
    apply datetime_add_returns in Hadd. destruct Hadd as [Hnb' _].
    destruct (IH nb' Hadv) as [Hge [k Hk]].
    split; [exact Hge | exists (S k); lia].
  - intros H. inversion H; subst. apply Z.ltb_ge in E.
    split; [exact E | exists O; simpl; lia].
Qed.

Lemma predict_reaches (fuel : nat) (now last_date : Z) (avg : Q) (r : Z) :
  predict fuel now last_date avg = Returns r ->
  now <= r /\
  exists k : nat, (0 < k)%nat /\ r = last_date + Z.of_nat k * timedelta_days avg.
Proof.
  unfold predict. intros H.
  apply bind_returns in H. destruct H as [nb [Hadd Hadv]].
  apply datetime_add_returns in Hadd. destruct Hadd as [Hnb _].
  apply advance_reaches in Hadv. destruct Hadv as [Hge [k Hk]].
  split; [exact Hge | exists (S k); split; lia].
Qed.

(** With a zero step and a start before [now] the loop never leaves. *)
Lemma advance_zero_stuck (fuel : nat) (now nb : Z) :
  nb < now -> 0 <= nb <= datetime_max ->
  advance fuel 0 now nb = OutOfFuel.
Proof.
  intros Hlt Hr. induction fuel as [| fuel IH]; simpl;
    (destruct (nb <? now) eqn:E; [| apply Z.ltb_ge in E; lia]);
    [reflexivity |].
  unfold datetime_add. rewrite Z.add_0_r.
  replace ((nb <? 0) || (datetime_max <? nb)) with false.
  - simpl. exact IH.
  - symmetry. apply orb_false_iff. split; apply Z.ltb_ge; lia.
Qed.

Lemma predict_zero_stuck (fuel : nat) (now last_date : Z) (avg : Q) :
  timedelta_days avg = 0 ->
  last_date < now -> 0 <= last_date <= datetime_max ->
  predict fuel now last_date avg = OutOfFuel.
Proof.
  intros Htd Hlt Hr. unfold predict. rewrite Htd.
  unfold datetime_add at 1. rewrite Z.add_0_r.
  replace ((last_date <? 0) || (datetime_max <? last_date)) with false.
  - simpl. now apply advance_zero_stuck.
  - symmetry. apply orb_false_iff. split; apply Z.ltb_ge; lia.
Qed.

(** More fuel does not change an outcome that was reached. *)
Lemma advance_fuel_mono (fuel fuel' : nat) (td now nb : Z) :
  (fuel <= fuel')%nat ->
  advance fuel td now nb <> OutOfFuel ->
  advance fuel' td now nb = advance fuel td now nb.
Proof.
  revert fuel' nb. induction fuel as [| fuel IH]; intros fuel' nb Hle H.
  - simpl in *. destruct (nb <? now) eqn:E; [now elim H |].
    destruct fuel'; simpl; rewrite E; reflexivity.
  - destruct fuel' as [| fuel']; [lia |]. simpl in *.
    destruct (nb <? now); [| reflexivity].
    destruct (datetime_add nb td) as [nb' | e |]; simpl in *;
      [| reflexivity | reflexivity].
    apply IH; [lia | exact H].
Qed.

(** With a positive step the loop is left after finitely many rounds. *)
Lemma advance_terminates (td now nb : Z) :
  0 < td -> exists fuel, advance fuel td now nb <> OutOfFuel.
Proof.
  intros Htd.
  assert (H : forall n nb, now - nb <= Z.of_nat n * td ->
                           advance n td now nb <> OutOfFuel).
  { induction n as [| n IH]; intros nb0 Hn; simpl.
    - destruct (nb0 <? now) eqn:E; [apply Z.ltb_lt in E; lia | discriminate].
    - destruct (nb0 <? now) eqn:E; [| discriminate].
      destruct (datetime_add nb0 td) as [nb' | e |] eqn:Ea; simpl;
        [| discriminate |].
      + apply datetime_add_returns in Ea. destruct Ea as [Ea _].
        apply IH. nia.
      + unfold datetime_add in Ea.
        destruct ((nb0 + td <? 0) || (datetime_max <? nb0 + td)); discriminate. }
  exists (Z.to_nat ((now - nb) / td + 1)). apply H.
  destruct (Z_lt_le_dec (now - nb) 0) as [Hneg | Hpos].
  - assert (0 <= Z.of_nat (Z.to_nat ((now - nb) / td + 1)) * td) by nia. lia.
  - assert (0 <= (now - nb) / td) by (apply Z.div_pos; lia).
    rewrite Z2Nat.id by lia.
    pose proof (Z.mul_succ_div_gt (now - nb) td Htd). nia.
Qed.

Lemma predict_fuel_mono (fuel fuel' : nat) (now last_date : Z) (avg : Q) :
  (fuel <= fuel')%nat ->
  predict fuel now last_date avg <> OutOfFuel ->
  predict fuel' now last_date avg = predict fuel now last_date avg.
Proof.
  unfold predict. intros Hle H.
  destruct (datetime_add last_date (timedelta_days avg)) as [nb | e |];
    simpl in *; [| reflexivity | reflexivity].
  now apply advance_fuel_mono.
Qed.

(** ** The loop over the groups *)

Lemma summarise_spec (fuel : nat) (now : datetime) (m : string) (g : group)
  (recurring : list summary) :
  summarise fuel now m g recurring =
  if qualifies g
  then nb <- predict_for fuel now g ;; Returns (recurring ++ [summary_of m g nb])
  else Returns recurring.
Proof.
  unfold summarise, qualifies, predict_for, summary_of.
  destruct (3 <=? List.length (dates g))%nat; simpl; [| reflexivity].
  destruct (filter is_charge (amounts g)); reflexivity.
Qed.

Lemma summarise_fuel_mono (fuel fuel' : nat) (now : datetime) (m : string)
  (g : group) (recurring : list summary) :
  (fuel <= fuel')%nat ->
  summarise fuel now m g recurring <> OutOfFuel ->
  summarise fuel' now m g recurring = summarise fuel now m g recurring.
Proof.
  rewrite !summarise_spec. intros Hle H.
  destruct (qualifies g); [| reflexivity].
  unfold predict_for in *.
  rewrite (predict_fuel_mono fuel fuel'); [reflexivity | exact Hle |].
  intros Hp. apply H. now rewrite Hp.
Qed.

Lemma collect_fuel_mono (fuel fuel' : nat) (now : datetime)
  (md : merchant_data) (recurring : list summary) :
  (fuel <= fuel')%nat ->
  collect fuel now md recurring <> OutOfFuel ->
  collect fuel' now md recurring = collect fuel now md recurring.
Proof.
  intros Hle. revert recurring.
  induction md as [| [m g] rest IH]; intros recurring H; simpl in *;
    [reflexivity |].
  rewrite (summarise_fuel_mono fuel fuel'); [| exact Hle |].
  - destruct (summarise fuel now m g recurring) as [r' | e |]; simpl in *;
      [| reflexivity | reflexivity].
    now apply IH.
  - intros Hs. apply H. now rewrite Hs.
Qed.

Lemma parse_fuel_mono {lib : PyLib} (fuel fuel' : nat) (now : datetime)
  (file : list row) :
  (fuel <= fuel')%nat ->
  parse_transactions fuel now file <> OutOfFuel ->
  parse_transactions fuel' now file = parse_transactions fuel now file.
Proof.
  unfold parse_transactions. intros Hle H.
  destruct (scan_rows file []) as [md | e |]; simpl in *;
    [| reflexivity | reflexivity].
  rewrite (collect_fuel_mono fuel fuel'); [reflexivity | exact Hle |].
  intros Hc. apply H. now rewrite Hc.
Qed.

(** What the loop over the groups appends, and in which order. *)
Lemma collect_inv (fuel : nat) (now : datetime) (md : merchant_data)
  (recurring out : list summary) :
  collect fuel now md recurring = Returns out ->
  exists new,
    out = recurring ++ new /\
    (forall s, In s new ->
       exists g nb, In (merchant s, g) md /\ qualifies g = true /\
                    predict_for fuel now g = Returns nb /\
                    s = summary_of (merchant s) g nb) /\
    (forall a b, precedes a b new ->
       precedes (merchant a) (merchant b) (map fst md)) /\
    (forall m g, In (m, g) md -> qualifies g = true ->
       exists s, In s new /\ merchant s = m).
Proof.
  revert recurring out.
  induction md as [| [m g] rest IH]; intros recurring out H; simpl in H.
  - inversion H; subst. exists []. rewrite app_nil_r.
    split; [reflexivity |]. split; [intros s [] |].
    split; [| intros m g []].
    intros a b [l1 [l2 [l3 Hp]]]. destruct l1; discriminate.
  - apply bind_returns in H. destruct H as [rec' [Hs Hc]].
    destruct (IH rec' out Hc) as [new [Hout [Hfrom [Hord Hall]]]].
    rewrite summarise_spec in Hs.
    destruct (qualifies g) eqn:Eq.
    + apply bind_returns in Hs. destruct Hs as [nb [Hp Hr]].
      inversion Hr; subst rec'; clear Hr.
      exists (summary_of m g nb :: new).
      split; [subst out; assoc_eq |].
      split; [| split].
      * intros s [Hs | Hs].
        -- subst s. exists g, nb. simpl. auto.
        -- destruct (Hfrom s Hs) as [g' [nb' [Hin Hrest]]].
           exists g', nb'. split; [now right | exact Hrest].
      * intros a b Hp'. simpl. apply precedes_cons in Hp'.
        destruct Hp' as [[Ha Hb] | Hp'].
        -- subst a. simpl.
           destruct (Hfrom b Hb) as [g' [nb' [Hin _]]].
           apply (precedes_split m (merchant b) [m] (map fst rest));
             [now left |].
           apply in_map_iff. exists (merchant b, g'). auto.
        -- apply Hord in Hp'.
           apply (precedes_weaken _ _ _ [m] []) in Hp'.
           now rewrite app_nil_r in Hp'.
      * intros m' g' [Hin | Hin] Hq.
        -- inversion Hin; subst. exists (summary_of m' g' nb).
           split; [now left | reflexivity].
        -- destruct (Hall m' g' Hin Hq) as [s [Hs Hm]].
           exists s. split; [now right | exact Hm].
    + inversion Hs; subst rec'; clear Hs.
      exists new. split; [exact Hout |]. split; [| split].
      * intros s Hs. destruct (Hfrom s Hs) as [g' [nb' [Hin Hrest]]].
        exists g', nb'. split; [now right | exact Hrest].
      * intros a b Hp'. simpl. apply Hord in Hp'.
        apply (precedes_weaken _ _ _ [m] []) in Hp'.
        now rewrite app_nil_r in Hp'.
      * intros m' g' [Hin | Hin] Hq.
        -- inversion Hin; subst. congruence.
        -- exact (Hall m' g' Hin Hq).
Qed.

(** ** From the returned list back to the file *)

Section Results.
Context {lib : PyLib}.

Lemma parse_inv (fuel : nat) (now : datetime) (file : list row)
  (out : list summary) :
  parse_transactions fuel now file = Returns out ->
  exists md recurring,
    scan_rows file [] = Returns md /\
    collect fuel now md [] = Returns recurring /\
    out = sort_by (desc_by count) recurring.
Proof.
  unfold parse_transactions. intros H.
  apply bind_returns in H. destruct H as [md [Hscan H]].
  apply bind_returns in H. destruct H as [recurring [Hcol H]].
  inversion H; subst. now exists md, recurring.
Qed.

Lemma group_of_some (m : string) (file : list row) (g : group) :
  group_of m file = Some g ->
  dates g = recorded_dates m file /\
  amounts g = map c_amount (records m file) /\
  charges g = records m file.
Proof.
  unfold group_of. destruct (recorded_dates m file) as [| d ds];
    [discriminate |].
  intros H. inversion H; subst; simpl. auto.
Qed.

(** Every returned summary is the summary of the group of its merchant. *)
Lemma parse_member (fuel : nat) (now : datetime) (file : list row)
  (out : list summary) (s : summary) :
  parse_transactions fuel now file = Returns out -> In s out ->
  exists g nb,
    group_of (merchant s) file = Some g /\ qualifies g = true /\
    predict_for fuel now g = Returns nb /\ s = summary_of (merchant s) g nb.
Proof.
  intros H Hin. apply parse_inv in H.
  destruct H as [md [recurring [Hscan [Hcol Hout]]]]. subst out.
  apply (proj1 (sort_by_In _ _ _)) in Hin.
  apply collect_inv in Hcol.
  destruct Hcol as [new [Hnew [Hfrom _]]]. simpl in Hnew. subst new.
  destruct (Hfrom s Hin) as [g [nb [Hmd [Hq [Hp Hs]]]]].
  exists g, nb. split; [| auto].
  rewrite <- (scan_groups file md Hscan).
  apply md_get_member; [| exact Hmd].
  now apply (scan_keys_nodup file).
Qed.

Lemma recorded_dates_records (m : string) (file : list row) :
  no_partial file -> recorded_dates m file = record_dates m file.
Proof.
  unfold record_dates.
  induction file as [| r file IH]; intros Hnp; simpl; [reflexivity |].
  rewrite map_app, <- IH
    by (intros r' Hr'; apply Hnp; now right).
  f_equal.
  assert (Hr : row_partial r = false) by (apply Hnp; now left).
  unfold row_partial in Hr. unfold row_record.
  destruct (row_recorded r) as [[[m' date] amount] |]; [| reflexivity].
  destruct (float amount) as [a |]; [| discriminate].
  destruct (String.eqb m' m); reflexivity.
Qed.

End Results.

(** ** Dates in ascending order *)

Lemma insert_asc_sorted (x : Z) (l : list Z) :
  StronglySorted Z.le l -> StronglySorted Z.le (insert_by Z.ltb x l).
Proof.
  induction 1 as [| z l Hs IH Hz]; simpl.
  - constructor; constructor.
  - destruct (z <? x) eqn:E.
    + apply Z.ltb_lt in E. constructor; [exact IH |].
      apply Forall_forall. intros y Hy. apply insert_by_In in Hy.
      destruct Hy as [Hy | Hy]; [subst y; lia |].
      rewrite Forall_forall in Hz. now apply Hz.
    + apply Z.ltb_ge in E. constructor; [now constructor |].
      constructor; [exact E |].
      rewrite Forall_forall in Hz |- *. intros y Hy.
      specialize (Hz y Hy). lia.
Qed.

Lemma sort_asc_sorted (l : list Z) : StronglySorted Z.le (sort_by Z.ltb l).
Proof.
  induction l as [| x l IH]; simpl; [constructor | now apply insert_asc_sorted].
Qed.

Lemma last_member (l : list Z) (d : Z) : l <> [] -> In (last l d) l.
Proof.
  induction l as [| x l IH]; intros H; [now elim H |].
  destruct l as [| y l]; [now left |].
  right. apply IH. discriminate.
Qed.

Lemma last_of_sorted_is_greatest (l : list Z) (d : Z) :
  StronglySorted Z.le l -> forall x, In x l -> x <= last l d.
Proof.
  induction 1 as [| z l Hs IH Hz]; intros x Hx; [contradiction |].
  destruct l as [| y l].
  - destruct Hx as [Hx | []]. subst x. simpl. lia.
  - change (last (z :: y :: l) d) with (last (y :: l) d).
    destruct Hx as [Hx | Hx].
    + subst x. rewrite Forall_forall in Hz. apply Hz.
      apply last_member. discriminate.
    + now apply IH.
Qed.

(** [dates_sorted[-1]] is the latest of the dates. *)
Lemma last_date_is_latest (ds : list Z) :
  ds <> [] ->
  In (last (sort_by Z.ltb ds) 0) ds /\
  forall d, In d ds -> d <= last (sort_by Z.ltb ds) 0.
Proof.
  intros Hne. split.
  - apply (proj1 (sort_by_In Z.ltb _ ds)). apply last_member.
    intros Hnil. apply (f_equal (@List.length Z)) in Hnil.
    rewrite sort_by_length in Hnil. destruct ds; [now elim Hne | discriminate].
  - intros d Hd. apply last_of_sorted_is_greatest; [apply sort_asc_sorted |].
    now apply (proj2 (sort_by_In Z.ltb _ ds)).
Qed.

Lemma intervals_length (ds : list Z) :
  List.length (intervals ds) = pred (List.length ds).
Proof.
  induction ds as [| a ds IH]; [reflexivity |].
  destruct ds as [| b ds]; [reflexivity |].
  change (intervals (a :: b :: ds))
    with (days_between a b :: intervals (b :: ds)).
  simpl List.length in *. now rewrite IH.
Qed.

Lemma avg_interval_default (ds : list Z) :
  (List.length ds < 2)%nat ->
  avg_interval_of (intervals (sort_by Z.ltb ds)) = 30 # 1.
Proof.
  intros H.
  pose proof (intervals_length (sort_by Z.ltb ds)) as Hl.
  rewrite sort_by_length in Hl.
  destruct (intervals (sort_by Z.ltb ds)); [reflexivity |].
  simpl in Hl. lia.
Qed.

Lemma avg_interval_mean (ds : list Z) :
  (2 <= List.length ds)%nat ->
  avg_interval_of (intervals (sort_by Z.ltb ds)) = mean_gap ds.
Proof.
  intros H. unfold mean_gap.
  pose proof (intervals_length (sort_by Z.ltb ds)) as Hl.
  rewrite sort_by_length in Hl.
  destruct (intervals (sort_by Z.ltb ds)); [| reflexivity].
  simpl in Hl. lia.
Qed.

(** ** Which merchants are summarised *)

Lemma is_charge_lt (a : Q) : is_charge a = true <-> (a < 0)%Q.
Proof.
  unfold is_charge, Qltb. rewrite negb_true_iff.
  split; intros H.
  - apply Qnot_le_lt. intros Hle. apply Qle_bool_iff in Hle. congruence.
  - destruct (Qle_bool 0 a) eqn:E; [| reflexivity].
    apply Qle_bool_iff in E. apply Qlt_not_le in H. contradiction.
Qed.

Lemma md_get_In_pair (k : string) (g : group) (md : merchant_data) :
  md_get k md = Some g -> In (k, g) md.
Proof.
  induction md as [| [k' g'] rest IH]; simpl; [discriminate |].
  destruct (String.eqb k' k) eqn:E.
  - apply String.eqb_eq in E. intros H. inversion H; subst. now left.
  - intros H. right. now apply IH.
Qed.

Lemma qualifies_spec (g : group) :
  qualifies g = true <->
  (3 <= List.length (dates g))%nat /\
  exists a, In a (amounts g) /\ (a < 0)%Q.
Proof.
  unfold qualifies. rewrite andb_true_iff, Nat.leb_le.
  split; intros [H3 Hc]; (split; [exact H3 |]).
  - destruct (filter is_charge (amounts g)) as [| a l] eqn:E;
      [discriminate |].
    assert (Ha : In a (filter is_charge (amounts g)))
      by (rewrite E; now left).
    apply filter_In in Ha. destruct Ha as [Ha1 Ha2].
    exists a. split; [exact Ha1 | now apply is_charge_lt].
  - destruct Hc as [a [Ha1 Ha2]].
    assert (Ha : In a (filter is_charge (amounts g)))
      by (apply filter_In; split; [exact Ha1 | now apply is_charge_lt]).
    destruct (filter is_charge (amounts g)); [contradiction | reflexivity].
Qed.

(** When the run returns, a merchant has a summary exactly when at least
    three of its rows left a date and one of its parsed amounts is
    negative. *)
Lemma summary_iff_group_qualifies {lib : PyLib} (fuel : nat) (now : datetime)
  (file : list row) (out : list summary) (m : string) :
  parse_transactions fuel now file = Returns out ->
  ((exists s, In s out /\ merchant s = m) <->
   (3 <= List.length (recorded_dates m file))%nat /\
   exists c, In c (records m file) /\ (c_amount c < 0)%Q).
Proof.
  intros H. split.
  - intros [s [Hin Hm]].
    destruct (parse_member fuel now file out s H Hin)
      as [g [nb [Hg [Hq _]]]].
    rewrite Hm in Hg. apply group_of_some in Hg.
    destruct Hg as [Hd [Ha _]].
    apply qualifies_spec in Hq. rewrite Hd, Ha in Hq.
    destruct Hq as [H3 [a [Hin' Hneg]]].
    split; [exact H3 |].
    apply in_map_iff in Hin'. destruct Hin' as [c [Hc Hin']].
    exists c. split; [exact Hin' | now rewrite Hc].
  - intros [H3 [c [Hc Hneg]]].
    apply parse_inv in H.
    destruct H as [md [recurring [Hscan [Hcol Hout]]]]. subst out.
    apply collect_inv in Hcol.
    destruct Hcol as [new [Hnew [_ [_ Hall]]]]. simpl in Hnew. subst new.
    pose proof (scan_groups file md Hscan m) as Hg. unfold group_of in Hg.
    destruct (recorded_dates m file) as [| d ds] eqn:Ed;
      [simpl in H3; lia |].
    apply md_get_In_pair in Hg.
    destruct (Hall m _ Hg) as [s [Hs Hm]].
    + apply qualifies_spec. simpl. split; [exact H3 |].
      exists (c_amount c). split; [now apply in_map | exact Hneg].
    + exists s. split; [| exact Hm].
      now apply (proj2 (sort_by_In _ _ _)).
Qed.

(** ** When the run comes to an end *)

Lemma intervals_nonneg (l : list Z) :
  StronglySorted Z.le l -> Forall (fun i => 0 <= i) (intervals l).
Proof.
  induction 1 as [| a l Hs IH Ha]; [constructor |].
  destruct l as [| b l]; [constructor |].
  change (intervals (a :: b :: l))
    with (days_between a b :: intervals (b :: l)).
  constructor; [| exact IH].
  unfold days_between. apply Z.div_pos; [| reflexivity].
  inversion Ha; subst. lia.
Qed.

Lemma fold_add_nonneg (l : list Z) (acc : Z) :
  Forall (fun i => 0 <= i) l -> 0 <= acc -> 0 <= fold_left Z.add l acc.
Proof.
  revert acc. induction l as [| x l IH]; intros acc Hl Hacc; simpl;
    [exact Hacc |].
  inversion Hl; subst. apply IH; [assumption | lia].
Qed.

Lemma Zmean_nonneg (l : list Z) :
  Forall (fun i => 0 <= i) l -> 0 <= Qnum (Zmean l).
Proof.
  intros Hl. unfold Zmean, Qdiv, Qmult, Qinv, inject_Z. simpl.
  assert (Hs : 0 <= Zsum l) by (apply fold_add_nonneg; [exact Hl | lia]).
  pose proof (Nat2Z.is_nonneg (List.length l)) as Hn.
  destruct (Z.of_nat (List.length l)); simpl; lia.
Qed.

Lemma round_half_even_nonneg (q : Q) :
  0 <= Qnum q -> 0 <= round_half_even q.
Proof.
  intros H. unfold round_half_even.
  assert (Hfl : 0 <= Qnum q / Z.pos (Qden q))
    by (apply Z.div_pos; [exact H | reflexivity]).
  destruct (2 * (Qnum q mod Z.pos (Qden q)) ?= Z.pos (Qden q)); try lia.
  destruct (Z.even (Qnum q / Z.pos (Qden q))); lia.
Qed.

Lemma timedelta_days_nonneg (q : Q) : 0 <= Qnum q -> 0 <= timedelta_days q.
Proof.
  intros H. unfold timedelta_days. apply round_half_even_nonneg.
  unfold Qmult, inject_Z, us_per_day. simpl. lia.
Qed.

Lemma step_of_nonneg (g : group) : 0 <= step_of g.
Proof.
  unfold step_of. apply timedelta_days_nonneg.
  pose proof (intervals_nonneg _ (sort_asc_sorted (dates g))) as Hi.
  destruct (intervals (sort_by Z.ltb (dates g))) as [| i l] eqn:E;
    [simpl; lia |].
  unfold avg_interval_of. now apply Zmean_nonneg.
Qed.

Lemma predict_for_ends (now : datetime) (g : group) :
  stuck now g = false -> exists fuel, predict_for fuel now g <> OutOfFuel.
Proof.
  intros Hst. unfold predict_for, predict.
  fold (latest_of g). fold (step_of g).
  destruct (datetime_add (latest_of g) (step_of g)) as [nb | e |] eqn:Ea;
    simpl.
  - apply datetime_add_returns in Ea. destruct Ea as [Enb _].
    pose proof (step_of_nonneg g) as Hge.
    destruct (Z.eq_dec (step_of g) 0) as [Hz | Hnz].
    + exists O. simpl. unfold stuck in Hst. rewrite Hz in Hst. simpl in Hst.
      apply Z.ltb_ge in Hst.
      destruct (nb <? now) eqn:E; [apply Z.ltb_lt in E; lia | discriminate].
    + apply advance_terminates. lia.
  - exists O. discriminate.
  - unfold datetime_add in Ea.
    destruct ((latest_of g + step_of g <? 0)
              || (datetime_max <? latest_of g + step_of g)); discriminate.
Qed.

Lemma collect_ends (now : datetime) (md : merchant_data) :
  (forall m g, In (m, g) md -> qualifies g = true -> stuck now g = false) ->
  exists fuel, forall recurring, collect fuel now md recurring <> OutOfFuel.
Proof.
  induction md as [| [m g] rest IH]; intros H.
  - exists O. intros recurring. discriminate.
  - destruct IH as [fuel2 IH];
      [intros m' g' Hin; apply (H m' g'); now right |].
    destruct (qualifies g) eqn:Eq.
    + destruct (predict_for_ends now g (H m g (or_introl eq_refl) Eq))
        as [fuel1 Hp].
      exists (Nat.max fuel1 fuel2). intros recurring. simpl.
      assert (Hs : summarise fuel1 now m g recurring <> OutOfFuel).
      { rewrite summarise_spec, Eq.
        destruct (predict_for fuel1 now g); simpl; congruence. }
      rewrite (summarise_fuel_mono fuel1 _ now m g recurring
                 (Nat.le_max_l _ _) Hs).
      destruct (summarise fuel1 now m g recurring) as [r' | e |]; simpl;
        [| discriminate | congruence].
      rewrite (collect_fuel_mono fuel2 _ now rest r' (Nat.le_max_r _ _));
        apply IH.
    + exists fuel2. intros recurring. simpl.
      rewrite summarise_spec, Eq. simpl. apply IH.
Qed.

Section Ending.
Context {lib : PyLib}.

Lemma scan_rows_ends (file : list row) (md : merchant_data) :
  scan_rows file md <> OutOfFuel.
Proof.
  revert md. induction file as [| r file IH]; intros md; simpl;
    [discriminate |].
  rewrite row_step_spec.
  destruct (row_get r "Description 1") as [[d |] |]; simpl;
    [apply IH | discriminate | discriminate].
Qed.

(** The run comes to an end, by returning or by raising, unless some
    qualifying group has a zero step and its latest date before [now]. *)
Lemma parse_ends (now : datetime) (file : list row) :
  (forall m g, group_of m file = Some g -> qualifies g = true ->
               stuck now g = false) ->
  exists fuel, parse_transactions fuel now file <> OutOfFuel.
Proof.
  intros H. unfold parse_transactions.
  destruct (scan_rows file []) as [md | e |] eqn:Hscan; simpl.
  - destruct (collect_ends now md) as [fuel Hc].
    + intros m g Hin. apply (H m).
      rewrite <- (scan_groups file md Hscan).
      apply md_get_member; [now apply (scan_keys_nodup file) | exact Hin].
    + exists fuel. specialize (Hc []).
      destruct (collect fuel now md []); simpl; congruence.
  - exists O. discriminate.
  - now elim (scan_rows_ends file []).
Qed.

End Ending.

(** ** The average amount *)



(** ** The order of the returned list *)

(** C8: the returned list is in descending order of [count], and two
    summaries with the same count stand in the order in which their
    merchants were first filed while the input was read. *)
Theorem sorted_by_count_and_stable {lib : PyLib} (fuel : nat)
  (now : datetime) (file : list row) (out : list summary) :
  parse_transactions fuel now file = Returns out ->
  StronglySorted (fun a b => (count b <= count a)%nat) out /\
  forall a b, precedes a b out -> count a = count b ->
    (first_seen (merchant a) file < first_seen (merchant b) file)%nat.
Proof.
  intros H. apply parse_inv in H.
  destruct H as [md [recurring [Hscan [Hcol Hout]]]]. subst out.
  split; [apply sort_by_sorted |].
  intros a b Hp Hk.
  apply sort_by_stable in Hp; [| exact Hk].
  apply collect_inv in Hcol.
  destruct Hcol as [new [Hnew [_ [Hord _]]]]. simpl in Hnew. subst new.
  apply (scan_keys_order file md); [exact Hscan | now apply Hord].
Qed.

Lemma sorted_by_count_and_stable_witness :
  parse_transactions 50 sample_now file_three_merchants
  = Returns out_three_merchants /\
  StronglySorted (fun a b => (count b <= count a)%nat) out_three_merchants /\
  forall a b, precedes a b out_three_merchants -> count a = count b ->
    (first_seen (merchant a) file_three_merchants
     < first_seen (merchant b) file_three_merchants)%nat.
Proof.
  assert (H : parse_transactions 50 sample_now file_three_merchants
              = Returns out_three_merchants) by (vm_compute; reflexivity).
  split; [exact H |].
  exact (sorted_by_count_and_stable 50 sample_now file_three_merchants
           out_three_merchants H).
Defined.

(** ** Re-generation *)

Lemma enumerate_ids {A : Type} (i : nat) (l : list A) :
  map fst (enumerate i l) = seq i (List.length l) /\
  map snd (enumerate i l) = l.
Proof.
  revert i. induction l as [| x l IH]; intros i; simpl; [auto |].
  destruct (IH (S i)) as [H1 H2]. now rewrite H1, H2.
Qed.

Lemma generate_html_ids (now : datetime) (subscriptions : list summary) :
  map data_id (generate_html now subscriptions)
  = seq 0 (Nat.min 30 (List.length subscriptions)) /\
  map item_merchant (generate_html now subscriptions)
  = map merchant (firstn 30 subscriptions).
Proof.
  unfold generate_html. rewrite !map_map.
  destruct (enumerate_ids 0 (firstn 30 subscriptions)) as [H1 H2].
  split.
  - transitivity (map fst (enumerate 0 (firstn 30 subscriptions)));
      [now apply map_ext |].
    now rewrite H1, length_firstn.
  - transitivity (map merchant (map snd (enumerate 0 (firstn 30 subscriptions))));
      [rewrite map_map; now apply map_ext |].
    now rewrite H2.
Qed.

(** C9: two runs on the same rows with the same captured [now] return the
    same list of summaries, whatever number of loop rounds each was allowed,
    and render the same items; the renderer gives the items of the first
    thirty summaries the indices 0, 1, 2, ... in list order, and the storage
    key is one fixed string. *)
Theorem generation_is_deterministic {lib : PyLib} (file : list row)
  (now : datetime) (fuel1 fuel2 : nat) (out1 out2 : list summary) :
  parse_transactions fuel1 now file = Returns out1 ->
  parse_transactions fuel2 now file = Returns out2 ->
  out1 = out2 /\
  main fuel1 now file = main fuel2 now file /\
  map data_id (generate_html now out1)
  = seq 0 (Nat.min 30 (List.length out1)) /\
  map item_merchant (generate_html now out1)
  = map merchant (firstn 30 out1) /\
  storage_key = "completed"%string.
Proof.
  intros H1 H2.
  assert (Heq : out1 = out2).
  { pose proof (parse_fuel_mono fuel1 (Nat.max fuel1 fuel2) now file
                  (Nat.le_max_l _ _)) as M1.
    pose proof (parse_fuel_mono fuel2 (Nat.max fuel1 fuel2) now file
                  (Nat.le_max_r _ _)) as M2.
    rewrite H1 in M1. rewrite H2 in M2.
    rewrite M1 in M2 by discriminate.
    specialize (M2 ltac:(discriminate)). now inversion M2. }
  subst out2. split; [reflexivity |].
  split; [unfold main; now rewrite H1, H2 |].
  repeat split; apply generate_html_ids.
Qed.

Lemma generation_is_deterministic_witness :
  parse_transactions 50 sample_now file_three_merchants
  = Returns out_three_merchants /\
  parse_transactions 70 sample_now file_three_merchants
  = Returns out_three_merchants /\
  out_three_merchants = out_three_merchants /\
  main 50 sample_now file_three_merchants
  = main 70 sample_now file_three_merchants /\
  map data_id (generate_html sample_now out_three_merchants)
  = seq 0 (Nat.min 30 (List.length out_three_merchants)) /\
  map item_merchant (generate_html sample_now out_three_merchants)
  = map merchant (firstn 30 out_three_merchants) /\
  storage_key = "completed"%string.
Proof.
  assert (H1 : parse_transactions 50 sample_now file_three_merchants
               = Returns out_three_merchants) by (vm_compute; reflexivity).
  assert (H2 : parse_transactions 70 sample_now file_three_merchants
               = Returns out_three_merchants) by (vm_compute; reflexivity).
  split; [exact H1 |]. split; [exact H2 |].
  exact (generation_is_deterministic file_three_merchants sample_now 50 70
           out_three_merchants out_three_merchants H1 H2).
Defined.

(** ** Rows without an amount *)

Section BlankAmount.
Context {lib : PyLib}.

Lemma blank_amount_not_recorded (r : row) (cad usd : string) :
  row_get r "CAD$" = Some (Some cad) ->
  row_get r "USD$" = Some (Some usd) ->
  strip cad = EmptyString -> strip usd = EmptyString ->
  row_recorded r = None.
Proof.
  intros Hc Hu Hsc Hsu. unfold row_recorded, row_amount.
  rewrite Hc, Hsc, Hu, Hsu. simpl.
  destruct (row_merchant r); [| reflexivity].
  destruct (row_date r); reflexivity.
Qed.

Lemma unrecorded_row_step (r : row) (md md' : merchant_data) :
  row_recorded r = None -> row_step md r = Returns md' -> md' = md.
Proof.
  intros Hr. rewrite row_step_spec, Hr.
  destruct (row_get r "Description 1") as [[d |] |]; try discriminate.
  intros H. now inversion H.
Qed.

Lemma unrecorded_row_dropped (r : row) (pre post : list row)
  (fuel : nat) (now : datetime) :
  row_recorded r = None ->
  (exists d, row_get r "Description 1" = Some (Some d)) ->
  parse_transactions fuel now (pre ++ r :: post)
  = parse_transactions fuel now (pre ++ post).
Proof.
  intros Hr [d Hd]. unfold parse_transactions.
  rewrite !scan_rows_app.
  destruct (scan_rows pre []) as [md | e |]; simpl; try reflexivity.
  rewrite row_step_spec, Hd, Hr. reflexivity.
Qed.

(** C10: a row whose CAD$ and USD$ columns are both empty once stripped
    creates no record: the dictionary is the same after the row as before
    it, the row adds nothing to the dates and records of any merchant, and
    when it has a description the whole result is what it is without the
    row. *)
Theorem blank_amount_row_ignored (r : row) (cad usd : string) :
  row_get r "CAD$" = Some (Some cad) ->
  row_get r "USD$" = Some (Some usd) ->
  strip cad = EmptyString -> strip usd = EmptyString ->
  (forall md md', row_step md r = Returns md' -> md' = md) /\
  (forall m pre post,
     recorded_dates m (pre ++ r :: post) = recorded_dates m (pre ++ post) /\
     records m (pre ++ r :: post) = records m (pre ++ post)) /\
  ((exists d, row_get r "Description 1" = Some (Some d)) ->
   forall fuel now pre post,
     parse_transactions fuel now (pre ++ r :: post)
     = parse_transactions fuel now (pre ++ post)).
Proof.
  intros Hc Hu Hsc Hsu.
  pose proof (blank_amount_not_recorded r cad usd Hc Hu Hsc Hsu) as Hr.
  split; [| split].
  - intros md md'. now apply unrecorded_row_step.
  - intros m pre post. unfold recorded_dates, records, row_record.
    rewrite !flat_map_app. simpl. rewrite Hr. auto.
  - intros Hd fuel now pre post. now apply unrecorded_row_dropped.
Qed.

End BlankAmount.

Lemma blank_amount_row_ignored_witness :
  row_get blank_amount_row "CAD$" = Some (Some "  "%string) /\
  row_get blank_amount_row "USD$" = Some (Some no_text) /\
  strip "  " = EmptyString /\ strip no_text = EmptyString /\
  (forall md md', row_step md blank_amount_row = Returns md' -> md' = md) /\
  (forall m pre post,
     recorded_dates m (pre ++ blank_amount_row :: post)
     = recorded_dates m (pre ++ post) /\
     records m (pre ++ blank_amount_row :: post) = records m (pre ++ post)) /\
  ((exists d, row_get blank_amount_row "Description 1" = Some (Some d)) ->
   forall fuel now pre post,
     parse_transactions fuel now (pre ++ blank_amount_row :: post)
     = parse_transactions fuel now (pre ++ post)).
Proof.
  repeat (split; [reflexivity |]).
  exact (blank_amount_row_ignored blank_amount_row "  " no_text
           eq_refl eq_refl eq_refl eq_refl).
Defined.

(** ** The predicted date and [now] *)

(** What the loop guarantees: the predicted date is not before [now]. *)
Lemma next_billing_not_before_now {lib : PyLib} (fuel : nat) (now : datetime)
  (file : list row) (out : list summary) (s : summary) :
  parse_transactions fuel now file = Returns out -> In s out ->
  now <= next_billing s.
Proof.
  intros H Hin.
  destruct (parse_member fuel now file out s H Hin)
    as [g [nb [_ [_ [Hp Hs]]]]].
  rewrite Hs. simpl. unfold predict_for in Hp.
  now apply predict_reaches in Hp.
Qed.

(** C1: at the midnight that lies ten days after the last of three charges
    made every ten days, the loop stops at once and the predicted date is
    [now] itself, not a later moment. *)
Theorem next_billing_can_equal_now (fuel : nat) :
  exists s,
    parse_transactions fuel midnight_jan_31 file_every_ten_days = Returns [s] /\
    merchant s = "GYM"%string /\
    next_billing s = midnight_jan_31.
Proof.
  eexists. split; [| split].
  - destruct fuel; vm_compute; reflexivity.
  - reflexivity.
  - vm_compute; reflexivity.
Qed.

(** ** Charges that share one date *)

(** C2: three charges of one merchant on one past day give a zero interval,
    and the prediction loop is never left: no amount of fuel lets
    [parse_transactions] return. *)
Theorem same_day_charges_never_return (fuel : nat) :
  parse_transactions fuel february_morning file_same_day = OutOfFuel.
Proof.
  unfold parse_transactions.
  destruct (scan_rows file_same_day []) as [md | e |] eqn:E;
    vm_compute in E; try discriminate.
  inversion E; subst md; clear E. simpl.
  rewrite summarise_spec.
  match goal with
  | |- context [qualifies ?g] =>
      replace (qualifies g) with true by (vm_compute; reflexivity)
  end.
  unfold predict_for.
  rewrite predict_zero_stuck; [reflexivity | | |].
  - vm_compute; reflexivity.
  - vm_compute; reflexivity.
  - split; vm_compute; discriminate.
Qed.

(** ** Rows whose amount does not parse *)

(** C5: a merchant with two parsed records and a third row whose amount is
    not a number still gets a summary, with a count of three. *)
Theorem two_records_and_a_bad_amount_qualify :
  List.length (records "GYM" file_bad_amount) = 2%nat /\
  List.length (recorded_dates "GYM" file_bad_amount) = 3%nat /\
  exists s,
    parse_transactions 50 february_morning file_bad_amount = Returns [s] /\
    merchant s = "GYM"%string /\ count s = 3%nat.
Proof.
  split; [vm_compute; reflexivity |]. split; [vm_compute; reflexivity |].
  eexists. split; [vm_compute; reflexivity |]. split; reflexivity.
Qed.

(** ** Failures inside the row loop *)

Section RowFailures.
Context {lib : PyLib}.

Lemma scan_described (file : list row) (md : merchant_data) :
  described file -> exists md', scan_rows file md = Returns md'.
Proof.
  revert md. induction file as [| r file IH]; intros md Hd; simpl.
  - now exists md.
  - destruct (Hd r (or_introl eq_refl)) as [d Hr].
    rewrite row_step_spec, Hr. simpl.
    apply IH. intros r' Hr'. apply Hd. now right.
Qed.

Lemma failed_row_not_recorded (r : row) :
  row_date r = None \/ row_amount r = None -> row_recorded r = None.
Proof.
  unfold row_recorded. intros [H | H]; rewrite H.
  - destruct (row_merchant r); reflexivity.
  - destruct (row_merchant r); [| reflexivity].
    destruct (row_date r); reflexivity.
Qed.

Lemma records_nil (m : string) (file : list row) :
  (forall r, In r file -> row_record r = None) -> records m file = [].
Proof.
  induction file as [| r file IH]; intros H; simpl; [reflexivity |].
  rewrite (H r (or_introl eq_refl)). simpl.
  apply IH. intros r' Hr'. apply H. now right.
Qed.

Lemma collect_none (fuel : nat) (now : datetime) (md : merchant_data)
  (recurring : list summary) :
  (forall m g, In (m, g) md -> qualifies g = false) ->
  collect fuel now md recurring = Returns recurring.
Proof.
  induction md as [| [m g] rest IH]; intros H; simpl; [reflexivity |].
  rewrite summarise_spec, (H m g (or_introl eq_refl)). simpl.
  apply IH. intros m' g' Hin. apply (H m' g'). now right.
Qed.

(** C3, as the code has it: when every row has a text in its description
    column the row loop raises nothing; a row whose date does not parse or
    whose amount cannot be read leaves the dictionary as it was and the loop
    goes on; and a file without a single row that parses completely yields
    the empty list. *)
Theorem row_failures_are_skipped (file : list row) :
  described file ->
  (exists md, scan_rows file [] = Returns md) /\
  (forall r md, In r file -> row_date r = None \/ row_amount r = None ->
     row_step md r = Returns md) /\
  ((forall r, In r file -> row_record r = None) ->
   forall fuel now, parse_transactions fuel now file = Returns []).
Proof.
  intros Hd. split; [now apply scan_described |]. split.
  - intros r md Hin Hfail.
    destruct (Hd r Hin) as [d Hr].
    rewrite row_step_spec, Hr, (failed_row_not_recorded r Hfail). reflexivity.
  - intros Hnone fuel now. unfold parse_transactions.
    destruct (scan_described file [] Hd) as [md Hscan].
    rewrite Hscan. simpl.
    rewrite collect_none; [reflexivity |].
    intros m g Hin.
    assert (Hg : group_of m file = Some g).
    { rewrite <- (scan_groups file md Hscan).
      apply md_get_member; [now apply (scan_keys_nodup file) | exact Hin]. }
    apply group_of_some in Hg. destruct Hg as [_ [Ham _]].
    unfold qualifies. rewrite Ham, (records_nil m file Hnone). simpl.
    apply andb_false_r.
Qed.

End RowFailures.

Lemma file_garbled_described : described file_garbled.
Proof.
  intros r Hin. simpl in Hin.
  repeat (destruct Hin as [Hin | Hin]; [subst r; eexists; reflexivity |]).
  contradiction.
Defined.

Lemma row_failures_are_skipped_witness :
  described file_garbled /\
  (exists md, scan_rows file_garbled [] = Returns md) /\
  (forall r md, In r file_garbled ->
     row_date r = None \/ row_amount r = None ->
     row_step md r = Returns md) /\
  ((forall r, In r file_garbled -> row_record r = None) ->
   forall fuel now, parse_transactions fuel now file_garbled = Returns []).
Proof.
  split; [exact file_garbled_described |].
  exact (row_failures_are_skipped file_garbled file_garbled_described).
Defined.

(** C3, as stated, fails: under a header without the column
    [Description 1] no row parses, yet the run ends in a [KeyError] and not
    in the empty list. *)
Lemma wrong_header_raises :
  Forall (fun r => row_record r = None) file_wrong_header /\
  parse_transactions 50 sample_now file_wrong_header
  = Raises (KeyError "Description 1") /\
  parse_transactions 50 sample_now file_wrong_header <> Returns [].
Proof.
  split; [repeat constructor |].
  split; [vm_compute; reflexivity | vm_compute; discriminate].
Qed.

(** ** The average interval and the predicted date *)

Section Intervals.
Context {lib : PyLib}.

(** What a summary is computed from when no row leaves a date without an
    amount: the dates of all the records of its merchant. *)
Lemma summary_dates (fuel : nat) (now : datetime) (file : list row)
  (out : list summary) (s : summary) :
  parse_transactions fuel now file = Returns out -> In s out ->
  no_partial file ->
  (3 <= List.length (record_dates (merchant s) file))%nat /\
  interval s
  = avg_interval_of (intervals (sort_by Z.ltb (record_dates (merchant s) file)))
  /\
  predict fuel now (last (sort_by Z.ltb (record_dates (merchant s) file)) 0)
          (interval s)
  = Returns (next_billing s).
Proof.
  intros H Hin Hnp.
  destruct (parse_member fuel now file out s H Hin)
    as [g [nb [Hg [Hq [Hp Hs]]]]].
  apply group_of_some in Hg. destruct Hg as [Hd _].
  rewrite (recorded_dates_records _ _ Hnp) in Hd.
  unfold qualifies in Hq. apply andb_true_iff in Hq. destruct Hq as [Hq _].
  apply Nat.leb_le in Hq. rewrite Hd in Hq.
  unfold predict_for in Hp. rewrite Hd in Hp.
  rewrite Hs. unfold summary_of; simpl. rewrite Hd. auto.
Qed.

(** C4, as the code has it: the average interval of a summary is the mean of
    the day gaps between consecutive dates of all the records of its
    merchant, charges and credits alike, in ascending order; there are at
    least three such dates, and 30 is what fewer than two dates give. *)
Theorem interval_is_mean_gap_of_all_dates (fuel : nat) (now : datetime)
  (file : list row) (out : list summary) (s : summary) :
  parse_transactions fuel now file = Returns out -> In s out ->
  no_partial file ->
  (3 <= List.length (record_dates (merchant s) file))%nat /\
  interval s = mean_gap (record_dates (merchant s) file) /\
  forall ds, (List.length ds < 2)%nat ->
             avg_interval_of (intervals (sort_by Z.ltb ds)) = 30 # 1.
Proof.
  intros H Hin Hnp.
  destruct (summary_dates fuel now file out s H Hin Hnp) as [Hlen [Hi _]].
  split; [exact Hlen |]. split; [| exact avg_interval_default].
  rewrite Hi. apply avg_interval_mean.
  apply Nat.le_trans with 3%nat; [repeat constructor | exact Hlen].
Qed.


End Intervals.

Lemma file_late_credit_no_partial : no_partial file_late_credit.
Proof.
  intros r Hin. simpl in Hin.
  repeat (destruct Hin as [Hin | Hin]; [subst r; reflexivity |]).
  contradiction.
Defined.

Lemma late_credit_run :
  parse_transactions 50 sample_now file_late_credit
  = Returns [late_credit_summary].
Proof. vm_compute; reflexivity. Defined.

Lemma interval_is_mean_gap_of_all_dates_witness :
  parse_transactions 50 sample_now file_late_credit
  = Returns [late_credit_summary] /\
  In late_credit_summary [late_credit_summary] /\
  no_partial file_late_credit /\
  (3 <= List.length (record_dates (merchant late_credit_summary)
                       file_late_credit))%nat /\
  interval late_credit_summary
  = mean_gap (record_dates (merchant late_credit_summary) file_late_credit) /\
  forall ds, (List.length ds < 2)%nat ->
             avg_interval_of (intervals (sort_by Z.ltb ds)) = 30 # 1.
Proof.
  split; [exact late_credit_run |]. split; [left; reflexivity |].
  split; [exact file_late_credit_no_partial |].
  exact (interval_is_mean_gap_of_all_dates 50 sample_now file_late_credit
           [late_credit_summary] late_credit_summary late_credit_run
           (or_introl eq_refl) file_late_credit_no_partial).
Defined.

(** C4, as stated, fails: with charges on January 1 and 21 and a credit on
    January 31 the charge dates have the single gap of 20 days, while the
    interval of the summary is 15, the mean of the gaps 20 and 10 that the
    credit's date takes part in. *)
Lemma interval_counts_credit_dates :
  parse_transactions 50 sample_now file_late_credit
  = Returns [late_credit_summary] /\
  (interval late_credit_summary == 15 # 1)%Q /\
  (avg_interval_of
     (intervals (sort_by Z.ltb (charge_dates "GYM" file_late_credit)))
   == 20 # 1)%Q /\
  ~ (interval late_credit_summary
     == avg_interval_of
          (intervals (sort_by Z.ltb (charge_dates "GYM" file_late_credit))))%Q.
Proof.
  split; [exact late_credit_run |].
  split; [vm_compute; reflexivity |].
  split; [vm_compute; reflexivity |].
  intros H. vm_compute in H. discriminate.
Qed.



(** * Further properties of the aggregator, the renderer and the links *)

(** ** More on sorting *)

Section SortPermutation.
Context {A : Type}.
Variable before : A -> A -> bool.

Lemma insert_by_perm (x : A) (l : list A) :
  Permutation (insert_by before x l) (x :: l).
Proof.
  induction l as [| z l IH]; simpl; [apply Permutation_refl |].
  destruct (before z x); [| apply Permutation_refl].
  apply perm_trans with (z :: x :: l); [now apply perm_skip | apply perm_swap].
Qed.

Lemma sort_by_perm (l : list A) : Permutation (sort_by before l) l.
Proof.
  induction l as [| x l IH]; simpl; [apply perm_nil |].
  apply perm_trans with (x :: sort_by before l);
    [apply insert_by_perm | now apply perm_skip].
Qed.

End SortPermutation.

Section SortByZKey.
Context {A : Type}.
Variable key : A -> Z.

(** [sorted(..., key=key, reverse=True)] gives a list in descending order
    of the key. *)
Lemma insert_desc_sorted (x : A) (l : list A) :
  StronglySorted (fun a b => key b <= key a) l ->
  StronglySorted (fun a b => key b <= key a)
    (insert_by (fun y x => key x <? key y) x l).
Proof.
  induction 1 as [| z l Hs IH Hz]; simpl.
  - constructor; constructor.
  - destruct (key x <? key z) eqn:E.
    + apply Z.ltb_lt in E. constructor; [exact IH |].
      apply Forall_forall. intros y Hy. apply insert_by_In in Hy.
      destruct Hy as [Hy | Hy]; [subst y; lia |].
      rewrite Forall_forall in Hz. now apply Hz.
    + apply Z.ltb_ge in E. constructor; [now constructor |].
      constructor; [exact E |].
      rewrite Forall_forall in Hz |- *. intros y Hy.
      specialize (Hz y Hy). lia.
Qed.

Lemma sort_desc_sorted (l : list A) :
  StronglySorted (fun a b => key b <= key a)
    (sort_by (fun y x => key x <? key y) l).
Proof.
  induction l as [| x l IH]; simpl; [constructor | now apply insert_desc_sorted].
Qed.

End SortByZKey.

Lemma first_of_sorted_is_least (l : list Z) (d : Z) :
  StronglySorted Z.le l -> forall x, In x l -> hd d l <= x.
Proof.
  intros Hs x Hx. destruct Hs as [| z l Hs Hz]; [contradiction |].
  simpl. destruct Hx as [Hx | Hx]; [subst; lia |].
  rewrite Forall_forall in Hz. now apply Hz.
Qed.

Lemma first_date_is_earliest (ds : list Z) :
  ds <> [] ->
  In (hd 0 (sort_by Z.ltb ds)) ds /\
  forall d, In d ds -> hd 0 (sort_by Z.ltb ds) <= d.
Proof.
  intros Hne. split.
  - apply (proj1 (sort_by_In Z.ltb _ ds)).
    destruct (sort_by Z.ltb ds) as [| x l] eqn:E; [| now left].
    apply (f_equal (@List.length Z)) in E. rewrite sort_by_length in E.
    destruct ds; [now elim Hne | discriminate].
  - intros d Hd. apply first_of_sorted_is_least; [apply sort_asc_sorted |].
    now apply (proj2 (sort_by_In Z.ltb _ ds)).
Qed.

(** ** The links *)

Lemma has_char_app (c : ascii) (a b : string) :
  has_char c (a ++ b)%string = has_char c a || has_char c b.
Proof.
  induction a as [| x a IH]; simpl; [reflexivity |].
  now rewrite IH, orb_assoc.
Qed.

Lemma replace_char_removes (old : ascii) (new s : string) :
  has_char old new = false -> has_char old (replace_char old new s) = false.
Proof.
  intros Hnew. induction s as [| x s IH]; simpl; [reflexivity |].
  destruct (Ascii.eqb x old) eqn:E.
  - now rewrite has_char_app, Hnew, IH.
  - simpl. now rewrite E, IH.
Qed.

Lemma replace_char_keeps_out (c old : ascii) (new s : string) :
  has_char c new = false -> has_char c s = false ->
  has_char c (replace_char old new s) = false.
Proof.
  intros Hnew. induction s as [| x s IH]; simpl; [reflexivity |].
  intros H. apply orb_false_iff in H. destruct H as [Hx Hs].
  destruct (Ascii.eqb x old).
  - now rewrite has_char_app, Hnew, IH.
  - simpl. now rewrite Hx, IH.
Qed.

Lemma urls_get_member (merchant url : string) (table : list (string * string)) :
  urls_get merchant table = Some url -> In (merchant, url) table.
Proof.
  induction table as [| [k v] rest IH]; simpl; [discriminate |].
  destruct (String.eqb k merchant) eqn:E.
  - apply String.eqb_eq in E. intros H. inversion H; subst. now left.
  - intros H. right. now apply IH.
Qed.

(** The keys of the table are pairwise different, so looking the table up
    from the front finds what the dictionary holds. *)
Lemma urls_keys_distinct : NoDup (map fst urls).
Proof.
  assert (H : forall l : list string,
             (fix distinct (l : list string) : bool :=
                match l with
                | [] => true
                | x :: l' =>
                    negb (existsb (String.eqb x) l') && distinct l'
                end) l = true -> NoDup l).
  { induction l as [| x l IH]; intros Hd; [constructor |].
    apply andb_true_iff in Hd. destruct Hd as [Hx Hl].
    constructor; [| now apply IH].
    intros Hin. apply negb_true_iff in Hx.
    assert (Hex : existsb (String.eqb x) l = true)
      by (apply existsb_exists; exists x; split;
          [exact Hin | apply String.eqb_refl]).
    congruence. }
  apply H. vm_compute. reflexivity.
Qed.

(** X1: whatever the merchant, the address that [get_vendor_url] returns
    starts with [https://] and holds no space. *)
Theorem vendor_url_is_https_without_space (merchant : string) :
  String.prefix "https://" (get_vendor_url merchant) = true /\
  has_char " " (get_vendor_url merchant) = false.
Proof.
  unfold get_vendor_url.
  destruct (urls_get merchant urls) as [url |] eqn:E.
  - apply urls_get_member in E.
    assert (H : forallb (fun p => String.prefix "https://" (snd p)
                                  && negb (has_char " " (snd p))) urls = true)
      by (vm_compute; reflexivity).
    rewrite forallb_forall in H. specialize (H _ E). simpl in H.
    apply andb_true_iff in H. destruct H as [H1 H2].
    apply negb_true_iff in H2. auto.
  - destruct (contains "CPANEL" merchant); [split; reflexivity |].
    destruct (contains "Audible" merchant); [split; reflexivity |].
    destruct (contains "GODADDY" merchant); [split; reflexivity |].
    destruct (contains "FS *" merchant); [split; reflexivity |].
    split; [reflexivity |].
    rewrite !has_char_app, replace_char_removes by reflexivity.
    reflexivity.
Qed.

(** X2: whatever the merchant, the address of the secondary button starts
    with [https://] and holds neither a space nor an asterisk. *)
Theorem search_link_is_https_without_space_or_star (merchant : string) :
  String.prefix "https://" (search_link merchant) = true /\
  has_char " " (search_link merchant) = false /\
  has_char "*" (search_link merchant) = false.
Proof.
  unfold search_link. split; [reflexivity |]. split.
  - rewrite !has_char_app.
    rewrite replace_char_keeps_out;
      [reflexivity | reflexivity | now apply replace_char_removes].
  - rewrite !has_char_app, replace_char_removes by reflexivity.
    reflexivity.
Qed.

(** ** What reaches the returned list *)

Lemma NoDup_precedes {A : Type} (a b : A) (l : list A) :
  NoDup l -> precedes a b l -> a <> b.
Proof.
  intros Hnd [l1 [l2 [l3 H]]] Hab. subst l b.
  apply NoDup_remove_2 in Hnd. apply Hnd.
  apply in_or_app. right. apply in_or_app. right. now left.
Qed.

Lemma NoDup_map_precedes {A B : Type} (f : A -> B) (l : list A) :
  (forall a b, precedes a b l -> f a <> f b) -> NoDup (map f l).
Proof.
  induction l as [| x l IH]; intros H; simpl; constructor.
  - intros Hin. apply in_map_iff in Hin. destruct Hin as [y [Hy Hin]].
    apply (H x y); [| now symmetry].
    apply (precedes_split x y [x] l); [now left | exact Hin].
  - apply IH. intros a b Hp. apply H.
    apply (precedes_weaken a b l [x] []) in Hp.
    now rewrite app_nil_r in Hp.
Qed.

Section Returned.
Context {lib : PyLib}.

Lemma recorded_dates_row (m : string) (file : list row) :
  recorded_dates m file <> [] ->
  exists r date amount, In r file /\ row_recorded r = Some (m, date, amount).
Proof.
  induction file as [| r file IH]; simpl; intros H; [now elim H |].
  destruct (row_recorded r) as [[[m' date] amount] |] eqn:Er.
  - destruct (String.eqb m' m) eqn:E.
    + apply String.eqb_eq in E. subst m'. exists r, date, amount. auto.
    + destruct (IH H) as [r' [d' [a' [Hin Hr']]]]. exists r', d', a'. auto.
  - destruct (IH H) as [r' [d' [a' [Hin Hr']]]]. exists r', d', a'. auto.
Qed.

Lemma records_le_recorded (m : string) (file : list row) :
  (List.length (records m file) <= List.length (recorded_dates m file))%nat.
Proof.
  induction file as [| r file IH]; simpl; [lia |].
  rewrite !length_app. unfold row_record.
  destruct (row_recorded r) as [[[m' date] amount] |]; simpl; [| lia].
  destruct (float amount); simpl; destruct (String.eqb m' m); simpl; lia.
Qed.

(** X3: the merchant of a returned summary is the stripped description of
    some row of the file, is not empty and contains none of the three
    excluded phrases. *)
Theorem summaries_come_from_kept_descriptions (fuel : nat) (now : datetime)
  (file : list row) (out : list summary) (s : summary) :
  parse_transactions fuel now file = Returns out -> In s out ->
  (exists r d, In r file /\ row_get r "Description 1" = Some (Some d) /\
               merchant s = strip d) /\
  merchant s <> EmptyString /\
  contains "PAYMENT - THANK YOU" (merchant s) = false /\
  contains "PURCHASE INTEREST" (merchant s) = false /\
  contains "OVERLIMIT FEE" (merchant s) = false.
Proof.
  intros H Hin.
  destruct (parse_member fuel now file out s H Hin) as [g [nb [Hg _]]].
  assert (Hne : recorded_dates (merchant s) file <> []).
  { unfold group_of in Hg.
    destruct (recorded_dates (merchant s) file); [discriminate | discriminate]. }
  destruct (recorded_dates_row _ _ Hne) as [r [date [amount [Hr Hrec]]]].
  unfold row_recorded, row_merchant in Hrec.
  destruct (row_get r "Description 1") as [[d |] |] eqn:Ed; try discriminate.
  destruct (skip_desc (strip d)) eqn:Esk; [discriminate |].
  assert (Hm : strip d = merchant s).
  { destruct (row_date r); [| discriminate].
    destruct (row_amount r) as [a |]; [| discriminate].
    destruct (nonempty a); [| discriminate]. now inversion Hrec. }
  split; [exists r, d; auto |].
  rewrite Hm in Esk. unfold skip_desc in Esk.
  apply orb_false_iff in Esk. destruct Esk as [Esk E3].
  apply orb_false_iff in Esk. destruct Esk as [Esk E2].
  apply orb_false_iff in Esk. destruct Esk as [E0 E1].
  repeat split; try assumption.
  intros Hempty. rewrite Hempty in E0. discriminate.
Qed.

(** X4: a row whose date cannot be read (a missing or empty column, text
    that ['%m/%d/%Y'] does not accept) can be taken out of the file without
    changing the outcome, as long as it has a description. *)
Theorem unparseable_date_row_dropped (r : row) (pre post : list row)
  (fuel : nat) (now : datetime) :
  row_date r = None ->
  (exists d, row_get r "Description 1" = Some (Some d)) ->
  parse_transactions fuel now (pre ++ r :: post)
  = parse_transactions fuel now (pre ++ post).
Proof.
  intros Hd Hdesc. apply unrecorded_row_dropped; [| exact Hdesc].
  apply failed_row_not_recorded. now left.
Qed.

(** X5: the first non-empty of the two amount columns wins.  When CAD$ is
    not blank the USD$ column is never looked at: two rows that agree on
    the description, the date and CAD$ are treated alike.  When CAD$ is
    blank the amount is the stripped USD$ text. *)
Theorem cad_takes_precedence (r : row) (cad : string) :
  row_get r "CAD$" = Some (Some cad) ->
  (strip cad <> EmptyString ->
   forall r' md,
     row_get r' "Description 1" = row_get r "Description 1" ->
     row_get r' "Transaction Date" = row_get r "Transaction Date" ->
     row_get r' "CAD$" = row_get r "CAD$" ->
     row_step md r' = row_step md r) /\
  (strip cad = EmptyString ->
   forall usd, row_get r "USD$" = Some (Some usd) ->
               row_amount r = Some (strip usd)).
Proof.
  intros Hc. split.
  - intros Hne r' md Hd Ht Hc'.
    unfold row_step, try_block, row_date, row_amount.
    rewrite Hd, Ht, Hc', Hc.
    destruct (strip cad) eqn:E; [now elim Hne | reflexivity].
  - intros Hb usd Hu. unfold row_amount. now rewrite Hc, Hb, Hu.
Qed.

Lemma collected_merchants_nodup (fuel : nat) (now : datetime)
  (file : list row) (md : merchant_data) (recurring : list summary) :
  scan_rows file [] = Returns md ->
  collect fuel now md [] = Returns recurring ->
  NoDup (map merchant recurring).
Proof.
  intros Hscan Hcol. apply collect_inv in Hcol.
  destruct Hcol as [new [Hnew [_ [Hord _]]]]. simpl in Hnew. subst new.
  apply NoDup_map_precedes. intros a b Hp.
  apply (NoDup_precedes _ _ (map fst md));
    [now apply (scan_keys_nodup file) | now apply Hord].
Qed.

Lemma NoDup_map_injective {A B : Type} (f : A -> B) (l : list A) (a b : A) :
  NoDup (map f l) -> In a l -> In b l -> f a = f b -> a = b.
Proof.
  induction l as [| x l IH]; simpl; intros Hnd Ha Hb Hf; [contradiction |].
  inversion Hnd as [| ? ? Hnot Hnd']; subst.
  destruct Ha as [Ha | Ha]; destruct Hb as [Hb | Hb].
  - congruence.
  - subst x. elim Hnot. rewrite Hf. now apply in_map.
  - subst x. elim Hnot. rewrite <- Hf. now apply in_map.
  - now apply IH.
Qed.

(** X6: no two summaries of the returned list have the same merchant. *)
Theorem merchants_are_distinct (fuel : nat) (now : datetime)
  (file : list row) (out : list summary) :
  parse_transactions fuel now file = Returns out ->
  NoDup (map merchant out).
Proof.
  intros H. apply parse_inv in H.
  destruct H as [md [recurring [Hscan [Hcol Hout]]]]. subst out.
  apply (Permutation_NoDup (l := map merchant recurring)).
  - apply Permutation_map, Permutation_sym, sort_by_perm.
  - exact (collected_merchants_nodup fuel now file md recurring Hscan Hcol).
Qed.

(** X7: the count of a summary is the number of rows that left a date under
    its merchant, credits included; it is at least 3, and the summary never
    lists more charges than that, nor fewer than one. *)
Theorem count_is_number_of_dated_rows (fuel : nat) (now : datetime)
  (file : list row) (out : list summary) (s : summary) :
  parse_transactions fuel now file = Returns out -> In s out ->
  count s = List.length (recorded_dates (merchant s) file) /\
  (3 <= count s)%nat /\
  (1 <= List.length (sub_charges s) <= count s)%nat.
Proof.
  intros H Hin.
  destruct (parse_member fuel now file out s H Hin)
    as [g [nb [Hg [Hq [_ Hs]]]]].
  apply group_of_some in Hg. destruct Hg as [Hd [Ha Hc]].
  unfold qualifies in Hq. apply andb_true_iff in Hq. destruct Hq as [H3 Hneg].
  apply Nat.leb_le in H3.
  assert (Hcount : count s = List.length (recorded_dates (merchant s) file)).
  { rewrite Hs at 1. unfold summary_of; simpl.
    now rewrite sort_by_length, Hd. }
  assert (Hlen : List.length (sub_charges s)
                 = List.length (filter is_charge (amounts g))).
  { rewrite Hs. unfold summary_of; simpl.
    rewrite sort_by_length, Ha, Hc.
    generalize (records (merchant s) file). intros l.
    induction l as [| c l IH]; simpl; [reflexivity |].
    destruct (is_charge (c_amount c)); simpl; now rewrite IH. }
  split; [exact Hcount |]. split; [rewrite Hcount, <- Hd; exact H3 |].
  rewrite Hlen. split.
  - destruct (filter is_charge (amounts g)); [discriminate | simpl; lia].
  - rewrite Hcount.
    apply Nat.le_trans with (List.length (amounts g));
      [apply filter_length_le |].
    rewrite Ha, length_map. apply records_le_recorded.
Qed.

End Returned.

(** ** The figures of a summary *)

Lemma Zsum_cons (x : Z) (l : list Z) : Zsum (x :: l) = x + Zsum l.
Proof.
  unfold Zsum. simpl.
  assert (H : forall l a b, fold_left Z.add l (a + b) = a + fold_left Z.add l b).
  { clear. induction l as [| y l IH]; intros a b; simpl; [reflexivity |].
    rewrite <- Z.add_assoc. apply IH. }
  rewrite <- (H l x 0). now rewrite Z.add_0_r.
Qed.

(** The day gaps of dates that all fall on midnight add up to the days
    between the first and the last. *)
Lemma intervals_telescope (l : list Z) (d : Z) :
  Forall (fun x => x mod us_per_day = 0) l -> l <> [] ->
  Zsum (intervals l) = (last l d - hd d l) / us_per_day.
Proof.
  induction l as [| a l IH]; intros Hm Hne; [now elim Hne |].
  destruct l as [| b l].
  - simpl. rewrite Z.sub_diag. reflexivity.
  - change (intervals (a :: b :: l))
      with (days_between a b :: intervals (b :: l)).
    rewrite Zsum_cons.
    change (last (a :: b :: l) d) with (last (b :: l) d).
    inversion Hm as [| ? ? Ha Hm']; subst.
    rewrite (IH Hm') by discriminate. simpl hd.
    assert (Hl : last (b :: l) d mod us_per_day = 0).
    { rewrite Forall_forall in Hm'. apply Hm'. apply last_member.
      discriminate. }
    inversion Hm' as [| ? ? Hb _]; subst.
    unfold days_between.
    generalize dependent (last (b :: l) d). intros L _ HL.
    rename HL into Hl.
    apply Z.mod_divide in Ha; [| discriminate].
    apply Z.mod_divide in Hb; [| discriminate].
    apply Z.mod_divide in Hl; [| discriminate].
    destruct Ha as [ka Ha]. destruct Hb as [kb Hb]. destruct Hl as [kl Hl].
    rewrite Ha, Hb, Hl.
    replace (kb * us_per_day - ka * us_per_day) with ((kb - ka) * us_per_day)
      by ring.
    replace (kl * us_per_day - kb * us_per_day) with ((kl - kb) * us_per_day)
      by ring.
    replace (kl * us_per_day - ka * us_per_day) with ((kl - ka) * us_per_day)
      by ring.
    rewrite !Z.div_mul by discriminate. ring.
Qed.

Lemma Qsum_positive (l : list Q) (acc : Q) :
  Forall (fun a => 0 < a)%Q l -> (0 <= acc)%Q -> l <> [] ->
  (0 < fold_left Qplus l acc)%Q.
Proof.
  revert acc. induction l as [| x l IH]; intros acc Hl Hacc Hne;
    [now elim Hne |].
  inversion Hl as [| ? ? Hx Hl']; subst. simpl.
  assert (Hpos : (0 < acc + x)%Q).
  { apply Qlt_le_trans with (0 + x)%Q; [now rewrite Qplus_0_l |].
    apply Qplus_le_l. exact Hacc. }
  destruct l as [| y l]; [exact Hpos |].
  apply IH; [exact Hl' | now apply Qlt_le_weak | discriminate].
Qed.

Section Figures.
Context {lib : PyLib}.

(** X8: the charges listed in a summary are exactly the records of its
    merchant with a negative amount, each once, the newest first. *)
Theorem listed_charges_are_the_negative_records (fuel : nat) (now : datetime)
  (file : list row) (out : list summary) (s : summary) :
  parse_transactions fuel now file = Returns out -> In s out ->
  Permutation (sub_charges s)
    (filter (fun c => is_charge (c_amount c)) (records (merchant s) file)) /\
  StronglySorted (fun a b => c_date b <= c_date a) (sub_charges s) /\
  forall c, In c (sub_charges s) ->
            In c (records (merchant s) file) /\ (c_amount c < 0)%Q.
Proof.
  intros H Hin.
  destruct (parse_member fuel now file out s H Hin)
    as [g [nb [Hg [_ [_ Hs]]]]].
  apply group_of_some in Hg. destruct Hg as [_ [_ Hc]].
  assert (Hsub : sub_charges s
                 = sort_by (fun y x => c_date x <? c_date y)
                     (filter (fun c => is_charge (c_amount c))
                        (records (merchant s) file))).
  { rewrite Hs at 1. unfold summary_of; simpl. now rewrite Hc. }
  rewrite Hsub. split; [apply sort_by_perm |].
  split; [apply (sort_desc_sorted c_date) |].
  intros c Hcin. apply (proj1 (sort_by_In _ _ _)) in Hcin.
  apply filter_In in Hcin. destruct Hcin as [H1 H2].
  split; [exact H1 | now apply is_charge_lt].
Qed.

(** X9: the average amount of a summary is strictly positive. *)
Theorem avg_amount_is_positive (fuel : nat) (now : datetime)
  (file : list row) (out : list summary) (s : summary) :
  parse_transactions fuel now file = Returns out -> In s out ->
  (0 < avg_amount s)%Q.
Proof.
  intros H Hin.
  destruct (parse_member fuel now file out s H Hin)
    as [g [nb [_ [Hq [_ Hs]]]]].
  rewrite Hs. unfold summary_of; simpl.
  unfold qualifies in Hq. apply andb_true_iff in Hq. destruct Hq as [_ Hq].
  set (l := filter is_charge (amounts g)) in *.
  assert (Hall : Forall (fun a => 0 < a)%Q (map Qabs l)).
  { apply Forall_forall. intros a Ha. apply in_map_iff in Ha.
    destruct Ha as [x [Hx Hxin]]. subst a. unfold l in Hxin.
    apply filter_In in Hxin. destruct Hxin as [_ Hneg].
    apply is_charge_lt in Hneg.
    rewrite Qabs_neg by now apply Qlt_le_weak.
    apply (Qopp_lt_compat x 0) in Hneg. exact Hneg. }
  assert (Hne : map Qabs l <> []) by (destruct l; discriminate).
  unfold Qmean. apply Qlt_shift_div_l.
  - destruct (map Qabs l) as [| a l']; [now elim Hne |].
    unfold Qlt. simpl. lia.
  - rewrite Qmult_0_l. unfold Qsum.
    apply Qsum_positive; [exact Hall | apply Qle_refl | exact Hne].
Qed.

(** X10: when all the dates filed under a merchant fall on midnight, as
    the dates that [strptime] returns do, the average interval is the
    number of days from the earliest to the latest date divided by the
    count less one. *)
Theorem interval_is_span_over_gaps (fuel : nat) (now : datetime)
  (file : list row) (out : list summary) (s : summary) :
  parse_transactions fuel now file = Returns out -> In s out ->
  Forall (fun d => d mod us_per_day = 0) (recorded_dates (merchant s) file) ->
  exists earliest latest,
    In earliest (recorded_dates (merchant s) file) /\
    In latest (recorded_dates (merchant s) file) /\
    (forall d, In d (recorded_dates (merchant s) file) ->
               earliest <= d <= latest) /\
    interval s
    = (inject_Z ((latest - earliest) / us_per_day)
       / inject_Z (Z.of_nat (count s - 1)))%Q.
Proof.
  intros H Hin Hmid.
  destruct (parse_member fuel now file out s H Hin)
    as [g [nb [Hg [Hq [_ Hs]]]]].
  apply group_of_some in Hg. destruct Hg as [Hd _].
  unfold qualifies in Hq. apply andb_true_iff in Hq. destruct Hq as [H3 _].
  apply Nat.leb_le in H3. rewrite Hd in H3.
  set (ds := recorded_dates (merchant s) file) in *.
  assert (Hne : ds <> []) by (intros E; rewrite E in H3; simpl in H3; lia).
  destruct (first_date_is_earliest ds Hne) as [Hfin Hfmin].
  destruct (last_date_is_latest ds Hne) as [Hlin Hlmax].
  exists (hd 0 (sort_by Z.ltb ds)), (last (sort_by Z.ltb ds) 0).
  split; [exact Hfin |]. split; [exact Hlin |].
  split; [intros d Hdin; split; [now apply Hfmin | now apply Hlmax] |].
  assert (Hsne : sort_by Z.ltb ds <> []).
  { intros E. apply (f_equal (@List.length Z)) in E.
    rewrite sort_by_length in E. apply Hne.
    destruct ds; [reflexivity | discriminate]. }
  assert (Hsmid : Forall (fun d => d mod us_per_day = 0) (sort_by Z.ltb ds)).
  { apply Forall_forall. intros d Hdin.
    rewrite Forall_forall in Hmid. apply Hmid.
    now apply (proj1 (sort_by_In Z.ltb _ ds)). }
  rewrite <- (intervals_telescope _ 0 Hsmid Hsne).
  rewrite Hs. unfold summary_of; simpl. rewrite Hd. fold ds.
  pose proof (intervals_length (sort_by Z.ltb ds)) as Hil.
  rewrite sort_by_length in Hil.
  assert (H3' : (3 <= @List.length Z ds)%nat) by exact H3.
  destruct (intervals (sort_by Z.ltb ds)) as [| i l] eqn:Ei;
    [simpl in Hil; lia |].
  unfold avg_interval_of, Zmean. rewrite Hil.
  now rewrite sort_by_length, Nat.sub_1_r.
Qed.

Lemma advance_first (fuel : nat) (td now nb r : Z) :
  advance fuel td now nb = Returns r -> r = nb \/ r - td < now.
Proof.
  revert nb. induction fuel as [| fuel IH]; intros nb; simpl;
    destruct (nb <? now) eqn:E; try discriminate.
  - intros H. inversion H. now left.
  - intros H. apply bind_returns in H. destruct H as [nb' [Hadd Hadv]].
    apply datetime_add_returns in Hadd. destruct Hadd as [Hnb' _].
    apply Z.ltb_lt in E.
    destruct (IH nb' Hadv) as [Hr | Hr]; right; lia.
  - intros H. inversion H. now left.
Qed.

(** X11: the predicted date is not before [now], and it is the first date
    of the sequence latest date + interval, + 2 intervals, ... with that
    property: either it is the latest date plus one interval, or one
    interval less falls before [now]. *)
Theorem next_billing_is_first_date_from_now (fuel : nat) (now : datetime)
  (file : list row) (out : list summary) (s : summary) :
  parse_transactions fuel now file = Returns out -> In s out ->
  now <= next_billing s /\
  (next_billing s
   = last (sort_by Z.ltb (recorded_dates (merchant s) file)) 0
     + timedelta_days (interval s)
   \/ next_billing s - timedelta_days (interval s) < now).
Proof.
  intros H Hin.
  split; [now apply (next_billing_not_before_now fuel now file out) |].
  destruct (parse_member fuel now file out s H Hin)
    as [g [nb [Hg [_ [Hp Hs]]]]].
  apply group_of_some in Hg. destruct Hg as [Hd _].
  rewrite Hs. unfold summary_of; simpl. rewrite Hd.
  unfold predict_for, predict in Hp. rewrite Hd in Hp.
  apply bind_returns in Hp. destruct Hp as [nb0 [Hadd Hadv]].
  apply datetime_add_returns in Hadd. destruct Hadd as [Hnb0 _].
  apply advance_first in Hadv. destruct Hadv as [Hr | Hr].
  - left. now rewrite Hr, Hnb0.
  - right. exact Hr.
Qed.

End Figures.

(** ** Returning, and how many summaries *)

Lemma stuck_never_returns (fuel : nat) (now : datetime) (g : group)
  (nb : datetime) :
  stuck now g = true -> predict_for fuel now g <> Returns nb.
Proof.
  unfold stuck. intros Hst. apply andb_true_iff in Hst.
  destruct Hst as [Hz Hlt]. apply Z.eqb_eq in Hz. apply Z.ltb_lt in Hlt.
  unfold predict_for, predict. fold (latest_of g). fold (step_of g).
  rewrite Hz.
  destruct (datetime_add (latest_of g) 0) as [nb0 | e |] eqn:Ea; simpl;
    [| discriminate | discriminate].
  apply datetime_add_returns in Ea. destruct Ea as [Enb Hr].
  rewrite Z.add_0_r in Enb. subst nb0.
  rewrite advance_zero_stuck by assumption. discriminate.
Qed.

Lemma list_sum_step (x : nat) (l : list nat) :
  list_sum (x :: l) = (x + list_sum l)%nat.
Proof. reflexivity. Qed.

Lemma sum_at_least (A : Type) (f : A -> nat) (n : nat) (l : list A) :
  (forall x, In x l -> n <= f x)%nat ->
  (n * List.length l <= list_sum (map f l))%nat.
Proof.
  induction l as [| x l IH]; intros H; simpl; [lia |].
  assert (n <= f x)%nat by (apply H; now left).
  assert (n * List.length l <= list_sum (map f l))%nat
    by (apply IH; intros y Hy; apply H; now right).
  lia.
Qed.

Section Counting.
Context {lib : PyLib}.

(** A row is filed under at most one of several different merchants. *)
Lemma filed_once (r : row) (ms : list string) :
  NoDup ms ->
  (list_sum (map (fun m => if files_under m r then 1 else 0) ms) <= 1)%nat.
Proof.
  induction 1 as [| m ms Hnot Hnd IH]; simpl; [lia |].
  destruct (files_under m r) eqn:E; [| exact IH].
  assert (Hz : (list_sum (map (fun m' => if files_under m' r then 1 else 0) ms)
                = 0)%nat).
  { clear IH Hnd. induction ms as [| m' ms IH']; simpl; [reflexivity |].
    destruct (files_under m' r) eqn:E'.
    - exfalso. apply Hnot. left.
      unfold files_under in E, E'.
      destruct (row_recorded r) as [[[k date] amount] |]; [| discriminate].
      apply String.eqb_eq in E. apply String.eqb_eq in E'. congruence.
    - apply IH'. intros Hin. apply Hnot. now right. }
  rewrite Hz. lia.
Qed.

Lemma recorded_dates_cons_length (m : string) (r : row) (file : list row) :
  List.length (recorded_dates m (r :: file))
  = ((if files_under m r then 1 else 0)
     + List.length (recorded_dates m file))%nat.
Proof.
  unfold recorded_dates, files_under. simpl. rewrite length_app.
  destruct (row_recorded r) as [[[m' date] amount] |]; [| reflexivity].
  destruct (String.eqb m' m); reflexivity.
Qed.

Lemma dated_rows_bounded (ms : list string) (file : list row) :
  NoDup ms ->
  (list_sum (map (fun m => List.length (recorded_dates m file)) ms)
   <= List.length file)%nat.
Proof.
  intros Hnd. induction file as [| r file IH].
  - induction ms as [| m ms IHm]; simpl; [lia |].
    inversion Hnd; subst. now apply IHm.
  - pose proof (filed_once r ms Hnd) as Hone.
    assert (Hsplit :
      (list_sum (map (fun m => List.length (recorded_dates m (r :: file))) ms)
       = list_sum (map (fun m => if files_under m r then 1 else 0) ms)
         + list_sum (map (fun m => List.length (recorded_dates m file)) ms))%nat).
    { clear. induction ms as [| m ms IHm]; [reflexivity |].
      rewrite !map_cons, !list_sum_step, IHm, recorded_dates_cons_length.
      lia. }
    rewrite Hsplit. simpl List.length. lia.
Qed.

(** X12: the run comes to an end, by returning or by raising, unless some
    qualifying group has a zero step and its latest date before [now]; and
    once it has come to an end, more loop rounds do not change the
    outcome. *)
Theorem run_ends_unless_a_group_is_stuck (now : datetime) (file : list row) :
  (forall m g, group_of m file = Some g -> qualifies g = true ->
               stuck now g = false) ->
  exists fuel,
    parse_transactions fuel now file <> OutOfFuel /\
    forall fuel', (fuel <= fuel')%nat ->
                  parse_transactions fuel' now file
                  = parse_transactions fuel now file.
Proof.
  intros H. destruct (parse_ends now file H) as [fuel Hf].
  exists fuel. split; [exact Hf |].
  intros fuel' Hle. now apply parse_fuel_mono.
Qed.

(** X13: conversely, whenever the run returns a list, no qualifying group
    has a zero step with its latest date before [now]. *)
Theorem returning_run_has_no_stuck_group (fuel : nat) (now : datetime)
  (file : list row) (out : list summary) :
  parse_transactions fuel now file = Returns out ->
  forall m g, group_of m file = Some g -> qualifies g = true ->
              stuck now g = false.
Proof.
  intros H m g Hg Hq.
  destruct (stuck now g) eqn:Est; [exfalso | reflexivity].
  pose proof H as Hparse. apply parse_inv in H.
  destruct H as [md [recurring [Hscan [Hcol Hout]]]].
  pose proof Hcol as Hcol'. apply collect_inv in Hcol'.
  destruct Hcol' as [new [Hnew [Hfrom [_ Hall]]]].
  rewrite <- (scan_groups file md Hscan) in Hg.
  pose proof (md_get_In_pair _ _ _ Hg) as Hin.
  destruct (Hall m g Hin Hq) as [s [Hs Hm]].
  destruct (Hfrom s Hs) as [g' [nb [Hin' [_ [Hp _]]]]].
  rewrite Hm in Hin'.
  assert (Heq : g' = g).
  { pose proof (md_get_member m g' md (scan_keys_nodup file md Hscan) Hin').
    congruence. }
  subst g'. exact (stuck_never_returns fuel now g nb Est Hp).
Qed.

(** X14: when the run returns, a merchant has a summary exactly when at
    least three of its rows left a date and one of its parsed amounts is
    negative; and it never has more than one. *)
Theorem summarised_iff_three_dates_and_a_charge (fuel : nat) (now : datetime)
  (file : list row) (out : list summary) (m : string) :
  parse_transactions fuel now file = Returns out ->
  ((exists s, In s out /\ merchant s = m) <->
   (3 <= List.length (recorded_dates m file))%nat /\
   exists c, In c (records m file) /\ (c_amount c < 0)%Q) /\
  forall s1 s2, In s1 out -> In s2 out ->
                merchant s1 = m -> merchant s2 = m -> s1 = s2.
Proof.
  intros H. split; [exact (summary_iff_group_qualifies fuel now file out m H) |].
  intros s1 s2 H1 H2 Hm1 Hm2.
  pose proof H as H'. apply parse_inv in H'.
  destruct H' as [md [recurring [Hscan [Hcol Hout]]]].
  apply (NoDup_map_injective merchant out); try assumption; [| congruence].
  subst out.
  apply (Permutation_NoDup (l := map merchant recurring));
    [apply Permutation_map, Permutation_sym, sort_by_perm |].
  exact (collected_merchants_nodup fuel now file md recurring Hscan Hcol).
Qed.

(** X15: there are at most a third as many summaries as rows. *)
Theorem at_most_a_third_of_the_rows (fuel : nat) (now : datetime)
  (file : list row) (out : list summary) :
  parse_transactions fuel now file = Returns out ->
  (3 * List.length out <= List.length file)%nat.
Proof.
  intros H.
  assert (Hnd : NoDup (map merchant out)).
  { pose proof H as H'. apply parse_inv in H'.
    destruct H' as [md [recurring [Hscan [Hcol Hout]]]]. subst out.
    apply (Permutation_NoDup (l := map merchant recurring));
      [apply Permutation_map, Permutation_sym, sort_by_perm |].
    exact (collected_merchants_nodup fuel now file md recurring Hscan Hcol). }
  pose proof (dated_rows_bounded (map merchant out) file Hnd) as Hb.
  rewrite map_map in Hb.
  pose proof (sum_at_least summary
                (fun s => List.length (recorded_dates (merchant s) file))
                3 out) as Hs.
  assert (Hthree : forall s, In s out ->
            (3 <= List.length (recorded_dates (merchant s) file))%nat).
  { intros s Hin.
    destruct (parse_member fuel now file out s H Hin) as [g [nb [Hg [Hq _]]]].
    apply group_of_some in Hg. destruct Hg as [Hd _].
    apply qualifies_spec in Hq. destruct Hq as [H3 _]. now rewrite <- Hd. }
  specialize (Hs Hthree). lia.
Qed.

End Counting.

(** ** One merchant at a time *)

Lemma predict_for_agrees (fuel1 fuel2 : nat) (now : datetime) (g : group)
  (nb1 nb2 : datetime) :
  predict_for fuel1 now g = Returns nb1 ->
  predict_for fuel2 now g = Returns nb2 -> nb1 = nb2.
Proof.
  unfold predict_for. intros Hp1 Hp2.
  pose proof (predict_fuel_mono fuel1 (Nat.max fuel1 fuel2) now
                (last (sort_by Z.ltb (dates g)) 0)
                (avg_interval_of (intervals (sort_by Z.ltb (dates g))))
                (Nat.le_max_l _ _)) as M1.
  pose proof (predict_fuel_mono fuel2 (Nat.max fuel1 fuel2) now
                (last (sort_by Z.ltb (dates g)) 0)
                (avg_interval_of (intervals (sort_by Z.ltb (dates g))))
                (Nat.le_max_r _ _)) as M2.
  rewrite Hp1 in M1. rewrite Hp2 in M2.
  specialize (M1 ltac:(discriminate)). specialize (M2 ltac:(discriminate)).
  congruence.
Qed.

Section Isolation.
Context {lib : PyLib}.

Lemma records_dates_recorded (m : string) (file : list row) (c : charge) :
  In c (records m file) -> In (c_date c) (recorded_dates m file).
Proof.
  induction file as [| r file IH]; simpl; [auto |].
  intros H. apply in_app_or in H. apply in_or_app.
  destruct H as [H | H]; [left | right; now apply IH].
  unfold row_record in H.
  destruct (row_recorded r) as [[[m' date] amount] |]; [| contradiction].
  destruct (float amount) as [a |]; [| contradiction].
  destruct (String.eqb m' m); [| contradiction].
  destruct H as [H | []]. subst c. now left.
Qed.

(** X16: the summary of a merchant depends on the rows of that merchant
    only: two files that file the same dates and the same records under a
    merchant give it the same summary, whatever their other rows are. *)
Theorem summary_depends_on_own_rows (fuel1 fuel2 : nat) (now : datetime)
  (file1 file2 : list row) (out1 out2 : list summary) (s1 s2 : summary) :
  parse_transactions fuel1 now file1 = Returns out1 ->
  parse_transactions fuel2 now file2 = Returns out2 ->
  In s1 out1 -> In s2 out2 -> merchant s1 = merchant s2 ->
  recorded_dates (merchant s1) file1 = recorded_dates (merchant s1) file2 ->
  records (merchant s1) file1 = records (merchant s1) file2 ->
  s1 = s2.
Proof.
  intros H1 H2 Hin1 Hin2 Hm Hd Hr.
  destruct (parse_member fuel1 now file1 out1 s1 H1 Hin1)
    as [g1 [nb1 [Hg1 [_ [Hp1 Hs1]]]]].
  destruct (parse_member fuel2 now file2 out2 s2 H2 Hin2)
    as [g2 [nb2 [Hg2 [_ [Hp2 Hs2]]]]].
  rewrite <- Hm in Hg2, Hs2.
  assert (Hg : g1 = g2).
  { unfold group_of in Hg1, Hg2. rewrite <- Hd, <- Hr in Hg2. congruence. }
  subst g2.
  assert (Hnb : nb1 = nb2) by exact (predict_for_agrees _ _ _ _ _ _ Hp1 Hp2).
  congruence.
Qed.

(** X17: after the row loop, every group of [merchant_data] has at least
    one date, its amounts are the amounts of its charges in the same
    order, it has no more charges than dates, and the date of each charge
    is among its dates. *)
Theorem groups_keep_their_lists_together (file : list row)
  (md : merchant_data) (m : string) (g : group) :
  scan_rows file [] = Returns md -> In (m, g) md ->
  dates g <> [] /\
  amounts g = map c_amount (charges g) /\
  (List.length (charges g) <= List.length (dates g))%nat /\
  forall c, In c (charges g) -> In (c_date c) (dates g).
Proof.
  intros Hscan Hin.
  assert (Hg : group_of m file = Some g).
  { rewrite <- (scan_groups file md Hscan).
    apply md_get_member; [now apply (scan_keys_nodup file) | exact Hin]. }
  pose proof Hg as Hg'. apply group_of_some in Hg'.
  destruct Hg' as [Hd [Ha Hc]].
  split; [| split; [| split]].
  - rewrite Hd. unfold group_of in Hg.
    destruct (recorded_dates m file); [discriminate | discriminate].
  - now rewrite Ha, Hc.
  - rewrite Hc, Hd. apply records_le_recorded.
  - intros c Hcin. rewrite Hc in Hcin. rewrite Hd.
    now apply records_dates_recorded.
Qed.

End Isolation.

(** ** The items of the document *)

Lemma generate_html_member (now : datetime) (subscriptions : list summary)
  (it : item) :
  In it (generate_html now subscriptions) ->
  exists i s, In s subscriptions /\ it = render_item now i s.
Proof.
  unfold generate_html. intros H. apply in_map_iff in H.
  destruct H as [[i s] [Hit Hin]]. exists i, s. split; [| now symmetry].
  assert (Hs : In s (map snd (enumerate 0 (firstn 30 subscriptions))))
    by (apply in_map_iff; exists (i, s); auto).
  rewrite (proj2 (enumerate_ids 0 _)) in Hs.
  rewrite <- (firstn_skipn 30 subscriptions).
  apply in_or_app. now left.
Qed.

Lemma sorted_app_order {A : Type} (R : A -> A -> Prop) (l1 l2 : list A) :
  StronglySorted R (l1 ++ l2) ->
  forall a b, In a l1 -> In b l2 -> R a b.
Proof.
  induction l1 as [| x l1 IH]; simpl; intros Hs a b Ha Hb; [contradiction |].
  inversion Hs as [| ? ? Hs' Hall]; subst.
  destruct Ha as [Ha | Ha].
  - subst a. rewrite Forall_forall in Hall. apply Hall.
    apply in_or_app. now right.
  - now apply IH.
Qed.

Lemma avg_interval_nonneg (ds : list Z) :
  0 <= Qnum (avg_interval_of (intervals (sort_by Z.ltb ds))).
Proof.
  pose proof (intervals_nonneg _ (sort_asc_sorted ds)) as Hi.
  destruct (intervals (sort_by Z.ltb ds)) as [| i l] eqn:E;
    [simpl; lia |].
  unfold avg_interval_of. now apply Zmean_nonneg.
Qed.

Section Items.
Context {lib : PyLib}.

Lemma listed_charges_sorted (fuel : nat) (now : datetime)
  (file : list row) (out : list summary) (s : summary) :
  parse_transactions fuel now file = Returns out -> In s out ->
  StronglySorted (fun a b => c_date b <= c_date a) (sub_charges s).
Proof.
  intros H Hin.
  destruct (parse_member fuel now file out s H Hin)
    as [g [nb [_ [_ [_ Hs]]]]].
  rewrite Hs. unfold summary_of; simpl. apply (sort_desc_sorted c_date).
Qed.

(** X18: the predicted date of an item is never before [now]; the item is
    classed urgent exactly when less than 7 whole days are left until that
    date, soon when at least 7 but less than 14 are left, and ok when at
    least 14 are left. *)
Theorem urgency_follows_whole_days_left (fuel : nat) (now : datetime)
  (file : list row) (out : list summary) (it : item) :
  parse_transactions fuel now file = Returns out ->
  In it (generate_html now out) ->
  now <= item_next it /\
  (urgency_class it = urgent <-> item_next it - now < 7 * us_per_day) /\
  (urgency_class it = soon <->
   7 * us_per_day <= item_next it - now < 14 * us_per_day) /\
  (urgency_class it = ok <-> 14 * us_per_day <= item_next it - now).
Proof.
  intros H Hin.
  destruct (generate_html_member now out it Hin) as [i [s [Hs Hit]]].
  pose proof (next_billing_not_before_now fuel now file out s H Hs) as Hge.
  subst it. unfold render_item; simpl. unfold days_between.
  set (x := next_billing s - now).
  assert (Hdm : x = us_per_day * (x / us_per_day) + x mod us_per_day)
    by (apply Z.div_mod; discriminate).
  assert (Hmod : 0 <= x mod us_per_day < us_per_day)
    by (apply Z.mod_pos_bound; reflexivity).
  unfold us_per_day in *.
  split; [exact Hge |].
  destruct (x / 86400000000 <? 7) eqn:E7.
  - apply Z.ltb_lt in E7.
    repeat split; intros; try discriminate; try lia.
  - apply Z.ltb_ge in E7.
    destruct (x / 86400000000 <? 14) eqn:E14.
    + apply Z.ltb_lt in E14.
      repeat split; intros; try discriminate; try lia.
    + apply Z.ltb_ge in E14.
      repeat split; intros; try discriminate; try lia.
Qed.

(** X19: an item shows at most ten charges, the first ten that its summary
    lists, and no charge that is left out is newer than one that is
    shown. *)
Theorem shown_charges_are_the_most_recent (fuel : nat) (now : datetime)
  (file : list row) (out : list summary) (it : item) :
  parse_transactions fuel now file = Returns out ->
  In it (generate_html now out) ->
  exists s,
    In s out /\ item_merchant it = merchant s /\
    (List.length (shown_charges it) <= 10)%nat /\
    sub_charges s = shown_charges it ++ skipn 10 (sub_charges s) /\
    forall c c', In c (shown_charges it) ->
                 In c' (skipn 10 (sub_charges s)) ->
                 c_date c' <= c_date c.
Proof.
  intros H Hin.
  destruct (generate_html_member now out it Hin) as [i [s [Hs Hit]]].
  exists s. subst it. unfold render_item;
    cbn [shown_charges item_merchant interval_days].
  split; [exact Hs |]. split; [reflexivity |].
  split; [apply firstn_le_length |].
  split; [symmetry; apply firstn_skipn |].
  pose proof (listed_charges_sorted fuel now file out s H Hs) as Hsorted.
  rewrite <- (firstn_skipn 10 (sub_charges s)) in Hsorted.
  intros c c' Hc Hc'.
  exact (sorted_app_order _ _ _ Hsorted c c' Hc Hc').
Qed.

(** X20: the whole number of days that an item shows for the interval is
    the average interval rounded down, and it is not negative. *)
Theorem interval_days_is_interval_rounded_down (fuel : nat) (now : datetime)
  (file : list row) (out : list summary) (it : item) :
  parse_transactions fuel now file = Returns out ->
  In it (generate_html now out) ->
  exists s,
    In s out /\ item_merchant it = merchant s /\
    0 <= interval_days it /\
    (inject_Z (interval_days it) <= interval s)%Q /\
    (interval s < inject_Z (interval_days it + 1))%Q.
Proof.
  intros H Hin.
  destruct (generate_html_member now out it Hin) as [i [s [Hs Hit]]].
  exists s. subst it. unfold render_item;
    cbn [shown_charges item_merchant interval_days].
  split; [exact Hs |]. split; [reflexivity |].
  destruct (parse_member fuel now file out s H Hs)
    as [g [nb [_ [_ [_ Hsum]]]]].
  assert (Hnn : 0 <= Qnum (interval s)).
  { rewrite Hsum. unfold summary_of; simpl. apply avg_interval_nonneg. }
  destruct (interval s) as [n d]. simpl in *.
  rewrite Z.quot_div_nonneg by lia.
  pose proof (Z.mul_div_le n (Z.pos d) ltac:(lia)) as Hle.
  pose proof (Z.mul_succ_div_gt n (Z.pos d) ltac:(lia)) as Hgt.
  split; [apply Z.div_pos; lia |].
  unfold Qle, Qlt, inject_Z; simpl. split; lia.
Qed.

End Items.

(** ** The further properties on the samples *)

Lemma with_credit_run :
  parse_transactions 50 sample_now file_with_credit = Returns out_with_credit.
Proof. vm_compute; reflexivity. Defined.

Lemma three_merchants_run :
  parse_transactions 50 sample_now file_three_merchants
  = Returns out_three_merchants.
Proof. vm_compute; reflexivity. Defined.

Lemma gym_summary_returned : In gym_summary out_with_credit.
Proof. left; reflexivity. Defined.

Lemma gym_item_shown : In gym_item (generate_html sample_now out_with_credit).
Proof. left; reflexivity. Defined.

Lemma summaries_come_from_kept_descriptions_witness :
  parse_transactions 50 sample_now file_with_credit = Returns out_with_credit /\
  In gym_summary out_with_credit /\
  (exists r d, In r file_with_credit /\
               row_get r "Description 1" = Some (Some d) /\
               merchant gym_summary = strip d) /\
  merchant gym_summary <> EmptyString /\
  contains "PAYMENT - THANK YOU" (merchant gym_summary) = false /\
  contains "PURCHASE INTEREST" (merchant gym_summary) = false /\
  contains "OVERLIMIT FEE" (merchant gym_summary) = false.
Proof.
  split; [exact with_credit_run |]. split; [exact gym_summary_returned |].
  exact (summaries_come_from_kept_descriptions 50 sample_now file_with_credit
           out_with_credit gym_summary with_credit_run gym_summary_returned).
Defined.

Lemma unparseable_date_row_dropped_witness :
  row_date bad_date_row = None /\
  (exists d, row_get bad_date_row "Description 1" = Some (Some d)) /\
  forall pre post fuel now,
    parse_transactions fuel now (pre ++ bad_date_row :: post)
    = parse_transactions fuel now (pre ++ post).
Proof.
  assert (Hd : exists d, row_get bad_date_row "Description 1" = Some (Some d))
    by (eexists; reflexivity).
  split; [reflexivity |]. split; [exact Hd |].
  intros pre post fuel now.
  exact (unparseable_date_row_dropped bad_date_row pre post fuel now
           eq_refl Hd).
Defined.

Lemma cad_takes_precedence_witness :
  row_get two_amounts_row "CAD$" = Some (Some "-4"%string) /\
  (strip "-4" <> EmptyString ->
   forall r' md,
     row_get r' "Description 1" = row_get two_amounts_row "Description 1" ->
     row_get r' "Transaction Date"
     = row_get two_amounts_row "Transaction Date" ->
     row_get r' "CAD$" = row_get two_amounts_row "CAD$" ->
     row_step md r' = row_step md two_amounts_row) /\
  (strip "-4" = EmptyString ->
   forall usd, row_get two_amounts_row "USD$" = Some (Some usd) ->
               row_amount two_amounts_row = Some (strip usd)).
Proof.
  split; [reflexivity |].
  exact (cad_takes_precedence two_amounts_row "-4" eq_refl).
Defined.

Lemma merchants_are_distinct_witness :
  parse_transactions 50 sample_now file_three_merchants
  = Returns out_three_merchants /\
  NoDup (map merchant out_three_merchants).
Proof.
  split; [exact three_merchants_run |].
  exact (merchants_are_distinct 50 sample_now file_three_merchants
           out_three_merchants three_merchants_run).
Defined.

Lemma count_is_number_of_dated_rows_witness :
  parse_transactions 50 sample_now file_with_credit = Returns out_with_credit /\
  In gym_summary out_with_credit /\
  count gym_summary
  = List.length (recorded_dates (merchant gym_summary) file_with_credit) /\
  (3 <= count gym_summary)%nat /\
  (1 <= List.length (sub_charges gym_summary) <= count gym_summary)%nat.
Proof.
  split; [exact with_credit_run |]. split; [exact gym_summary_returned |].
  exact (count_is_number_of_dated_rows 50 sample_now file_with_credit
           out_with_credit gym_summary with_credit_run gym_summary_returned).
Defined.

Lemma listed_charges_are_the_negative_records_witness :
  parse_transactions 50 sample_now file_with_credit = Returns out_with_credit /\
  In gym_summary out_with_credit /\
  Permutation (sub_charges gym_summary)
    (filter (fun c => is_charge (c_amount c))
       (records (merchant gym_summary) file_with_credit)) /\
  StronglySorted (fun a b => c_date b <= c_date a) (sub_charges gym_summary) /\
  forall c, In c (sub_charges gym_summary) ->
            In c (records (merchant gym_summary) file_with_credit) /\
            (c_amount c < 0)%Q.
Proof.
  split; [exact with_credit_run |]. split; [exact gym_summary_returned |].
  exact (listed_charges_are_the_negative_records 50 sample_now
           file_with_credit out_with_credit gym_summary with_credit_run
           gym_summary_returned).
Defined.

Lemma avg_amount_is_positive_witness :
  parse_transactions 50 sample_now file_with_credit = Returns out_with_credit /\
  In gym_summary out_with_credit /\
  (0 < avg_amount gym_summary)%Q.
Proof.
  split; [exact with_credit_run |]. split; [exact gym_summary_returned |].
  exact (avg_amount_is_positive 50 sample_now file_with_credit
           out_with_credit gym_summary with_credit_run gym_summary_returned).
Defined.

Lemma gym_dates_at_midnight :
  Forall (fun d => d mod us_per_day = 0)
    (recorded_dates (merchant gym_summary) file_with_credit).
Proof. repeat constructor. Defined.

Lemma interval_is_span_over_gaps_witness :
  parse_transactions 50 sample_now file_with_credit = Returns out_with_credit /\
  In gym_summary out_with_credit /\
  Forall (fun d => d mod us_per_day = 0)
    (recorded_dates (merchant gym_summary) file_with_credit) /\
  exists earliest latest,
    In earliest (recorded_dates (merchant gym_summary) file_with_credit) /\
    In latest (recorded_dates (merchant gym_summary) file_with_credit) /\
    (forall d, In d (recorded_dates (merchant gym_summary) file_with_credit) ->
               earliest <= d <= latest) /\
    interval gym_summary
    = (inject_Z ((latest - earliest) / us_per_day)
       / inject_Z (Z.of_nat (count gym_summary - 1)))%Q.
Proof.
  split; [exact with_credit_run |]. split; [exact gym_summary_returned |].
  split; [exact gym_dates_at_midnight |].
  exact (interval_is_span_over_gaps 50 sample_now file_with_credit
           out_with_credit gym_summary with_credit_run gym_summary_returned
           gym_dates_at_midnight).
Defined.

Lemma next_billing_is_first_date_from_now_witness :
  parse_transactions 50 sample_now file_with_credit = Returns out_with_credit /\
  In gym_summary out_with_credit /\
  sample_now <= next_billing gym_summary /\
  (next_billing gym_summary
   = last (sort_by Z.ltb
             (recorded_dates (merchant gym_summary) file_with_credit)) 0
     + timedelta_days (interval gym_summary)
   \/ next_billing gym_summary - timedelta_days (interval gym_summary)
      < sample_now).
Proof.
  split; [exact with_credit_run |]. split; [exact gym_summary_returned |].
  exact (next_billing_is_first_date_from_now 50 sample_now file_with_credit
           out_with_credit gym_summary with_credit_run gym_summary_returned).
Defined.

Lemma group_of_absent {lib : PyLib} (m : string) (file : list row) :
  (forall r, In r file -> files_under m r = false) -> group_of m file = None.
Proof.
  intros H. unfold group_of.
  assert (Hd : recorded_dates m file = []).
  { induction file as [| r file IH]; [reflexivity |].
    unfold recorded_dates in *. simpl.
    pose proof (H r (or_introl eq_refl)) as Hr. unfold files_under in Hr.
    destruct (row_recorded r) as [[[m' date] amount] |].
    - rewrite Hr. simpl. apply IH. intros r' Hr'. apply H. now right.
    - simpl. apply IH. intros r' Hr'. apply H. now right. }
  now rewrite Hd.
Qed.

Lemma file_with_credit_rows (r : row) :
  In r file_with_credit ->
  exists d a, row_recorded r = Some ("GYM"%string, d, a).
Proof.
  intros Hin. simpl in Hin.
  repeat (destruct Hin as [Hin | Hin];
          [subst r; eexists; eexists; vm_compute; reflexivity |]).
  contradiction.
Qed.

Lemma file_with_credit_groups (m : string) (g : group) :
  group_of m file_with_credit = Some g -> g = gym_group.
Proof.
  intros Hg. destruct (String.eqb "GYM" m) eqn:E.
  - apply String.eqb_eq in E. subst m. vm_compute in Hg.
    inversion Hg. reflexivity.
  - rewrite group_of_absent in Hg; [discriminate |].
    intros r Hin. destruct (file_with_credit_rows r Hin) as [d [a Hr]].
    unfold files_under. now rewrite Hr.
Qed.

Lemma file_with_credit_not_stuck (m : string) (g : group) :
  group_of m file_with_credit = Some g -> qualifies g = true ->
  stuck sample_now g = false.
Proof.
  intros Hg _. rewrite (file_with_credit_groups m g Hg).
  vm_compute. reflexivity.
Defined.

Lemma run_ends_unless_a_group_is_stuck_witness :
  (forall m g, group_of m file_with_credit = Some g -> qualifies g = true ->
               stuck sample_now g = false) /\
  exists fuel,
    parse_transactions fuel sample_now file_with_credit <> OutOfFuel /\
    forall fuel', (fuel <= fuel')%nat ->
                  parse_transactions fuel' sample_now file_with_credit
                  = parse_transactions fuel sample_now file_with_credit.
Proof.
  split; [exact file_with_credit_not_stuck |].
  exact (run_ends_unless_a_group_is_stuck sample_now file_with_credit
           file_with_credit_not_stuck).
Defined.

Lemma returning_run_has_no_stuck_group_witness :
  parse_transactions 50 sample_now file_with_credit = Returns out_with_credit /\
  forall m g, group_of m file_with_credit = Some g -> qualifies g = true ->
              stuck sample_now g = false.
Proof.
  split; [exact with_credit_run |].
  exact (returning_run_has_no_stuck_group 50 sample_now file_with_credit
           out_with_credit with_credit_run).
Defined.

Lemma summarised_iff_three_dates_and_a_charge_witness :
  parse_transactions 50 sample_now file_with_credit = Returns out_with_credit /\
  ((exists s, In s out_with_credit /\ merchant s = "GYM"%string) <->
   (3 <= List.length (recorded_dates "GYM" file_with_credit))%nat /\
   exists c, In c (records "GYM" file_with_credit) /\ (c_amount c < 0)%Q) /\
  forall s1 s2, In s1 out_with_credit -> In s2 out_with_credit ->
                merchant s1 = "GYM"%string -> merchant s2 = "GYM"%string ->
                s1 = s2.
Proof.
  split; [exact with_credit_run |].
  exact (summarised_iff_three_dates_and_a_charge 50 sample_now
           file_with_credit out_with_credit "GYM" with_credit_run).
Defined.

Lemma at_most_a_third_of_the_rows_witness :
  parse_transactions 50 sample_now file_three_merchants
  = Returns out_three_merchants /\
  (3 * List.length out_three_merchants
   <= List.length file_three_merchants)%nat.
Proof.
  split; [exact three_merchants_run |].
  exact (at_most_a_third_of_the_rows 50 sample_now file_three_merchants
           out_three_merchants three_merchants_run).
Defined.

Lemma with_credit_and_more_run :
  parse_transactions 60 sample_now file_with_credit_and_more
  = Returns out_with_credit.
Proof. vm_compute; reflexivity. Defined.

Lemma summary_depends_on_own_rows_witness :
  parse_transactions 50 sample_now file_with_credit = Returns out_with_credit /\
  parse_transactions 60 sample_now file_with_credit_and_more
  = Returns out_with_credit /\
  In gym_summary out_with_credit /\ In gym_summary out_with_credit /\
  merchant gym_summary = merchant gym_summary /\
  recorded_dates (merchant gym_summary) file_with_credit
  = recorded_dates (merchant gym_summary) file_with_credit_and_more /\
  records (merchant gym_summary) file_with_credit
  = records (merchant gym_summary) file_with_credit_and_more /\
  gym_summary = gym_summary.
Proof.
  split; [exact with_credit_run |]. split; [exact with_credit_and_more_run |].
  split; [exact gym_summary_returned |]. split; [exact gym_summary_returned |].
  split; [reflexivity |]. split; [reflexivity |]. split; [reflexivity |].
  exact (summary_depends_on_own_rows 50 60 sample_now file_with_credit
           file_with_credit_and_more out_with_credit out_with_credit
           gym_summary gym_summary with_credit_run with_credit_and_more_run
           gym_summary_returned gym_summary_returned eq_refl eq_refl eq_refl).
Defined.

Lemma with_credit_scan :
  scan_rows file_with_credit [] = Returns [("GYM"%string, gym_group)].
Proof. vm_compute; reflexivity. Defined.

Lemma groups_keep_their_lists_together_witness :
  scan_rows file_with_credit [] = Returns [("GYM"%string, gym_group)] /\
  In ("GYM"%string, gym_group) [("GYM"%string, gym_group)] /\
  dates gym_group <> [] /\
  amounts gym_group = map c_amount (charges gym_group) /\
  (List.length (charges gym_group) <= List.length (dates gym_group))%nat /\
  forall c, In c (charges gym_group) -> In (c_date c) (dates gym_group).
Proof.
  split; [exact with_credit_scan |]. split; [left; reflexivity |].
  exact (groups_keep_their_lists_together file_with_credit
           [("GYM"%string, gym_group)] "GYM" gym_group with_credit_scan
           (or_introl eq_refl)).
Defined.

Lemma urgency_follows_whole_days_left_witness :
  parse_transactions 50 sample_now file_with_credit = Returns out_with_credit /\
  In gym_item (generate_html sample_now out_with_credit) /\
  sample_now <= item_next gym_item /\
  (urgency_class gym_item = urgent <->
   item_next gym_item - sample_now < 7 * us_per_day) /\
  (urgency_class gym_item = soon <->
   7 * us_per_day <= item_next gym_item - sample_now < 14 * us_per_day) /\
  (urgency_class gym_item = ok <->
   14 * us_per_day <= item_next gym_item - sample_now).
Proof.
  split; [exact with_credit_run |]. split; [exact gym_item_shown |].
  exact (urgency_follows_whole_days_left 50 sample_now file_with_credit
           out_with_credit gym_item with_credit_run gym_item_shown).
Defined.

Lemma shown_charges_are_the_most_recent_witness :
  parse_transactions 50 sample_now file_with_credit = Returns out_with_credit /\
  In gym_item (generate_html sample_now out_with_credit) /\
  exists s,
    In s out_with_credit /\ item_merchant gym_item = merchant s /\
    (List.length (shown_charges gym_item) <= 10)%nat /\
    sub_charges s = shown_charges gym_item ++ skipn 10 (sub_charges s) /\
    forall c c', In c (shown_charges gym_item) ->
                 In c' (skipn 10 (sub_charges s)) ->
                 c_date c' <= c_date c.
Proof.
  split; [exact with_credit_run |]. split; [exact gym_item_shown |].
  exact (shown_charges_are_the_most_recent 50 sample_now file_with_credit
           out_with_credit gym_item with_credit_run gym_item_shown).
Defined.

Lemma interval_days_is_interval_rounded_down_witness :
  parse_transactions 50 sample_now file_with_credit = Returns out_with_credit /\
  In gym_item (generate_html sample_now out_with_credit) /\
  exists s,
    In s out_with_credit /\ item_merchant gym_item = merchant s /\
    0 <= interval_days gym_item /\
    (inject_Z (interval_days gym_item) <= interval s)%Q /\
    (interval s < inject_Z (interval_days gym_item + 1))%Q.
Proof.
  split; [exact with_credit_run |]. split; [exact gym_item_shown |].
  exact (interval_days_is_interval_rounded_down 50 sample_now
           file_with_credit out_with_credit gym_item with_credit_run
           gym_item_shown).
Defined.

(** ** The exceptions that leave [parse_transactions] *)

Lemma advance_raises (fuel : nat) (td now nb : Z) (e : exn) :
  advance fuel td now nb = Raises e -> e = OverflowError.
Proof.
  revert nb. induction fuel as [| fuel IH]; intros nb; simpl;
    destruct (nb <? now); try discriminate.
  unfold datetime_add.
  destruct ((nb + td <? 0) || (datetime_max <? nb + td)); simpl.
  - intros H. now inversion H.
  - apply IH.
Qed.

Lemma collect_raises (fuel : nat) (now : datetime) (md : merchant_data)
  (recurring : list summary) (e : exn) :
  collect fuel now md recurring = Raises e -> e = OverflowError.
Proof.
  revert recurring. induction md as [| [m g] rest IH]; intros recurring;
    simpl; [discriminate |].
  rewrite summarise_spec. destruct (qualifies g); simpl; [| apply IH].
  unfold predict_for, predict.
  destruct (datetime_add (last (sort_by Z.ltb (dates g)) 0)
              (timedelta_days
                 (avg_interval_of (intervals (sort_by Z.ltb (dates g))))))
    as [nb0 | e0 |] eqn:Ea; simpl.
  - destruct (advance fuel _ now nb0) as [nb | e1 |] eqn:Eadv; simpl.
    + apply IH.
    + intros H. inversion H; subst. now apply advance_raises in Eadv.
    + discriminate.
  - intros H. inversion H; subst. unfold datetime_add in Ea.
    destruct ((_ <? 0) || (datetime_max <? _)); now inversion Ea.
  - discriminate.
Qed.

Section Exceptions.
Context {lib : PyLib}.

(** A row without a text in its description column. *)
Lemma scan_raises (file : list row) (md : merchant_data) (e : exn) :
  scan_rows file md = Raises e ->
  (e = KeyError "Description 1" \/ e = AttributeError) /\
  exists r, In r file /\
            (row_get r "Description 1" = None \/
             row_get r "Description 1" = Some None).
Proof.
  revert md. induction file as [| r file IH]; intros md; simpl;
    [discriminate |].
  rewrite row_step_spec.
  destruct (row_get r "Description 1") as [[d |] |] eqn:Ed; simpl.
  - intros H. destruct (IH _ H) as [He [r' [Hin Hr']]].
    split; [exact He | exists r'; auto].
  - intros H. inversion H. split; [now right | exists r; auto].
  - intros H. inversion H. split; [now left | exists r; auto].
Qed.

Lemma scan_raises_on_missing_description (file : list row)
  (md : merchant_data) (r : row) :
  In r file ->
  row_get r "Description 1" = None \/ row_get r "Description 1" = Some None ->
  exists e, scan_rows file md = Raises e /\
            (e = KeyError "Description 1" \/ e = AttributeError).
Proof.
  revert md. induction file as [| r0 file IH]; intros md Hin Hbad;
    [contradiction |].
  simpl. rewrite row_step_spec.
  destruct (row_get r0 "Description 1") as [[d |] |] eqn:Ed; simpl.
  - destruct Hin as [Hin | Hin].
    + subst r0. destruct Hbad as [Hb | Hb]; congruence.
    + now apply IH.
  - exists AttributeError. auto.
  - exists (KeyError "Description 1"). auto.
Qed.

(** X21: the only exceptions that leave [parse_transactions] are a
    [KeyError] for ['Description 1'] and an [AttributeError], both raised
    when a row has no text in its description column, and an
    [OverflowError], raised only when every row has one. *)
Theorem exceptions_are_missing_description_or_overflow (fuel : nat)
  (now : datetime) (file : list row) (e : exn) :
  parse_transactions fuel now file = Raises e ->
  ((e = KeyError "Description 1" \/ e = AttributeError) /\
   exists r, In r file /\
             (row_get r "Description 1" = None \/
              row_get r "Description 1" = Some None)) \/
  (e = OverflowError /\ described file).
Proof.
  unfold parse_transactions.
  destruct (scan_rows file []) as [md | e0 |] eqn:Hscan; simpl.
  - destruct (collect fuel now md []) as [rec | e1 |] eqn:Hcol; simpl;
      try discriminate.
    intros H. inversion H; subst. right.
    split; [now apply collect_raises in Hcol |].
    intros r Hin.
    destruct (row_get r "Description 1") as [[d |] |] eqn:Ed;
      [now exists d | |];
      (destruct (scan_raises_on_missing_description file [] r Hin)
         as [e' [He' _]]; [auto | congruence]).
  - intros H. inversion H; subst. left. now apply (scan_raises file []).
  - discriminate.
Qed.

(** X22: a file with a row that has no text in its description column is
    always refused with a [KeyError] or an [AttributeError], whatever its
    other rows hold and whatever [now] is. *)
Theorem missing_description_always_raises (file : list row) (r : row)
  (fuel : nat) (now : datetime) :
  In r file ->
  row_get r "Description 1" = None \/ row_get r "Description 1" = Some None ->
  exists e, parse_transactions fuel now file = Raises e /\
            (e = KeyError "Description 1" \/ e = AttributeError).
Proof.
  intros Hin Hbad.
  destruct (scan_raises_on_missing_description file [] r Hin Hbad)
    as [e [Hscan He]].
  exists e. split; [| exact He].
  unfold parse_transactions. now rewrite Hscan.
Qed.

End Exceptions.

(** ** The average amount between the smallest and the largest charge *)





Lemma exceptions_are_missing_description_or_overflow_witness :
  parse_transactions 50 sample_now file_wrong_header
  = Raises (KeyError "Description 1") /\
  (((KeyError "Description 1" = KeyError "Description 1" \/
     KeyError "Description 1" = AttributeError) /\
    exists r, In r file_wrong_header /\
              (row_get r "Description 1" = None \/
               row_get r "Description 1" = Some None)) \/
   (KeyError "Description 1" = OverflowError /\ described file_wrong_header)).
Proof.
  assert (H : parse_transactions 50 sample_now file_wrong_header
              = Raises (KeyError "Description 1"))
    by (vm_compute; reflexivity).
  split; [exact H |].
  exact (exceptions_are_missing_description_or_overflow 50 sample_now
           file_wrong_header (KeyError "Description 1") H).
Defined.

Lemma missing_description_always_raises_witness :
  In (hd [] file_wrong_header) file_wrong_header /\
  (row_get (hd [] file_wrong_header) "Description 1" = None \/
   row_get (hd [] file_wrong_header) "Description 1" = Some None) /\
  exists e, parse_transactions 50 sample_now file_wrong_header = Raises e /\
            (e = KeyError "Description 1" \/ e = AttributeError).
Proof.
  assert (Hin : In (hd [] file_wrong_header) file_wrong_header)
    by (left; reflexivity).
  assert (Hbad : row_get (hd [] file_wrong_header) "Description 1" = None \/
                 row_get (hd [] file_wrong_header) "Description 1" = Some None)
    by (left; reflexivity).
  split; [exact Hin |]. split; [exact Hbad |].
  exact (missing_description_always_raises file_wrong_header
           (hd [] file_wrong_header) 50 sample_now Hin Hbad).
Defined.
